(** * Interface board firmware: the two-wire request/response protocol

    A shallow embedding of [BaseProtocol.cpp] / [BaseProtocol.h] (checksum,
    general-call handling, frame dispatcher), of the command table and the
    hopper measurement of [Main.cpp] ([processCommand], [measure_hopper]),
    of the sketch's [measure_hopper] and of [ButtonEncoder.h] ([process],
    [button_isr], [encoder_isr], run without interrupts in between).

    Conventions.
    - A [uint8_t] or [uint16_t] value is a [Z]; every place where the C code
      truncates to eight bits is written out with [u8].
    - The memory the transport lends to the protocol is a function from
      addresses to bytes; a [uint8_t *] is an address, [data[i]] reads
      [mem (data + i)] and [data + 1] is the next address.  Handler and
      dispatcher share that memory.
    - Calls to the platform ([wdt_enable]), to the transport
      ([TwoWireResetDeviceAddress]), to [calcCrc], to [processCommand] and
      every store the dispatcher itself performs are recorded, in order, in
      a trace.
    - [while (true);] is a loop that consumes fuel; a computation that has
      not returned when the fuel is gone yields [None]. *)

From Stdlib Require Import ZArith List Bool Lia.
Import ListNotations.
Local Open Scope Z_scope.

(** ** Machine integers and memory *)

Definition u8 (z : Z) : Z := z mod 256.

Definition ptr := Z.
Definition memory := Z -> Z.

Definition store (mem : memory) (p : ptr) (v : Z) : memory :=
  fun q => if q =? p then v else mem q.

(** The [n] bytes at [data], [data + 1], ... as a list. *)
Definition frame (mem : memory) (data : ptr) (n : nat) : list Z :=
  map (fun i => mem (data + Z.of_nat i)) (seq 0 n).

Definition is_byte (b : Z) : Prop := 0 <= b < 256.

(** ** BaseProtocol.h *)

Module Status.
Definition COMMAND_OK : Z := 0x00.
Definition COMMAND_FAILED : Z := 0x01.
Definition COMMAND_NOT_SUPPORTED : Z := 0x02.
Definition INVALID_TRANSFER : Z := 0x03.
Definition INVALID_CRC : Z := 0x04.
Definition INVALID_ARGUMENTS : Z := 0x05.
(* Never sent, used internally to indicate no status should be returned. *)
Definition NO_REPLY : Z := 0xff.
End Status.

Module GeneralCallCommands.
Definition RESET : Z := 0x06.
Definition RESET_ADDRESS : Z := 0x04.
End GeneralCallCommands.

Module CmdResult.
Record cmd_result : Type := mk { status : Z; len : Z }.
End CmdResult.
Abbreviation cmd_result := CmdResult.cmd_result.

(** The constructor [cmd_result(uint8_t status, uint8_t len = 0)], with and
    without its second argument. *)
Definition cmd_result_of (status len : Z) : cmd_result := CmdResult.mk status len.
Definition cmd_result_status (status : Z) : cmd_result := cmd_result_of status 0.

Definition cmd_ok (len : Z) : cmd_result := cmd_result_of Status.COMMAND_OK len.

(** ** Checksum engine *)

(** Modelled from the spec: [_crc8_ccitt_update] comes from avr-libc's
    [<util/crc16.h>], which is not part of the repository.  The spec calls
    it a polynomial-based CRC-8, CCITT variant; this is the bitwise loop
    avr-libc documents as its equivalent: xor the byte into the register,
    then eight times shift left and, when a one falls out of bit 7, xor the
    polynomial [0x07] in. *)
Definition crc8_shift (data : Z) : Z :=
  if negb (Z.land data 0x80 =? 0)
  then Z.lxor (u8 (Z.shiftl data 1)) 0x07
  else u8 (Z.shiftl data 1).

Fixpoint crc8_shifts (i : nat) (data : Z) : Z :=
  match i with
  | O => data
  | S i' => crc8_shifts i' (crc8_shift data)
  end.

Definition _crc8_ccitt_update (inCrc inData : Z) : Z :=
  crc8_shifts 8 (Z.lxor inCrc inData).

(** The loop of [calcCrc]: [i] is the loop index, [n] the number of
    iterations still to run ([len - i]; the index never wraps since
    [i < len <= 255]). *)
Fixpoint calcCrc_loop (mem : memory) (data : ptr) (i : Z) (n : nat) (crc : Z) : Z :=
  match n with
  | O => crc
  | S n' => calcCrc_loop mem data (i + 1) n' (_crc8_ccitt_update crc (mem (data + i)))
  end.

Definition calcCrc (mem : memory) (data : ptr) (len : Z) : Z :=
  calcCrc_loop mem data 0 (Z.to_nat len) 0.

(** The same checksum over a list of bytes. *)
Definition crc8 (l : list Z) : Z := fold_left _crc8_ccitt_update l 0.


(** ** Effects: memory, trace, non-returning calls *)

Inductive event : Type :=
| WdtEnable (timeout : Z)                        (* wdt_enable(timeout) *)
| ResetDeviceAddress                             (* TwoWireResetDeviceAddress() *)
| CalcCrc (data : ptr) (len : Z)                 (* calcCrc(data, len) *)
| ProcessCommand (cmd : Z) (data : ptr) (len maxLen : Z)
| Store (p : ptr) (v : Z).                       (* a store by the protocol layer *)

Record machine : Type := mkMachine { m_mem : memory; m_trace : list event }.

(** A computation transforms the machine and either returns a value or has
    not returned yet ([None]). *)
Definition M (A : Type) : Type := machine -> option A * machine.

Definition ret {A : Type} (a : A) : M A := fun m => (Some a, m).

Definition bind {A B : Type} (c : M A) (k : A -> M B) : M B :=
  fun m =>
    match c m with
    | (Some a, m') => k a m'
    | (None, m') => (None, m')
    end.

Notation "x <- c ;; k" := (bind c (fun x => k))
  (at level 61, c at next level, right associativity).
Notation "c ;;; k" := (bind c (fun _ => k))
  (at level 61, right associativity).

Definition emit (e : event) : M unit :=
  fun m => (Some tt, mkMachine (m_mem m) (m_trace m ++ [e])).

Definition load (p : ptr) : M Z := fun m => (Some (m_mem m p), m).

Definition store_byte (p : ptr) (v : Z) : M unit :=
  fun m => (Some tt, mkMachine (store (m_mem m) p v) (m_trace m ++ [Store p v])).

(** [while (true) body] *)
Fixpoint while_true {A : Type} (fuel : nat) (body : M unit) : M A :=
  match fuel with
  | O => fun m => (None, m)
  | S fuel' => body ;;; while_true fuel' body
  end.

(** [calcCrc] as a call: it reads the memory and leaves it as it is. *)
Definition call_calcCrc (data : ptr) (len : Z) : M Z :=
  emit (CalcCrc data len) ;;;
  fun m => (Some (calcCrc (m_mem m) data len), m).

(** Modelled from the spec: [WDTO_15MS] comes from avr-libc's [<avr/wdt.h>],
    the shortest watchdog timeout ("a short hardware watchdog timeout");
    avr-libc gives it the value 0. *)
Definition WDTO_15MS : Z := 0.

(** ** BaseProtocol.cpp *)

Definition handleGeneralCall (fuel : nat) (data : ptr) (len maxLen : Z) : M Z :=
  fun m =>
    if (1 <=? len) && (m_mem m data =? GeneralCallCommands.RESET) then
      (emit (WdtEnable WDTO_15MS) ;;;
       while_true fuel (ret tt)) m
    else if (1 <=? len) && (m_mem m data =? GeneralCallCommands.RESET_ADDRESS) then
      (emit ResetDeviceAddress ;;;
       ret 0) m
    else
      ret 0 m.

Section Dispatcher.

(** [processCommand] as [BaseProtocol.h] declares it:
    [cmd_result processCommand(uint8_t cmd, uint8_t *data, uint8_t len,
    uint8_t maxLen)].  The handler works on the shared memory. *)
Variable processCommand : Z -> ptr -> Z -> Z -> memory -> cmd_result * memory.

Definition call_processCommand (cmd : Z) (data : ptr) (len maxLen : Z) : M cmd_result :=
  emit (ProcessCommand cmd data len maxLen) ;;;
  fun m =>
    let (res, mem') := processCommand cmd data len maxLen (m_mem m) in
    (Some res, mkMachine mem' (m_trace m)).

(** Lines 52-55: [data[len] = calcCrc(data, len); ++len; return len;] *)
Definition append_crc (data : ptr) (len : Z) : M Z :=
  crc <- call_calcCrc data len ;;
  store_byte (data + len) crc ;;;
  ret (u8 (len + 1)).

Definition TwoWireCallback (fuel : nat) (address : Z) (data : ptr) (len maxLen : Z) : M Z :=
  if address =? 0 then
    handleGeneralCall fuel data len maxLen
  else if maxLen <? 2 then
    ret 0
  else if len <? 2 then
    store_byte data Status.INVALID_TRANSFER ;;;
    append_crc data 1
  else
    crc <- call_calcCrc data len ;;
    if negb (crc =? 0) then
      store_byte data Status.INVALID_CRC ;;;
      append_crc data 1
    else
      cmd <- load data ;;
      res <- call_processCommand cmd (data + 1) (u8 (len - 2)) (u8 (maxLen - 2)) ;;
      if CmdResult.status res =? Status.NO_REPLY then
        ret 0
      else
        store_byte data (CmdResult.status res) ;;;
        append_crc data (u8 (CmdResult.len res + 1)).

End Dispatcher.

(** ** Main.cpp *)

Module Commands.
Definition GET_LAST_MEASUREMENT : Z := 0x80.
End Commands.

Module Main.

(** [uint16_t measurement[2]] is the pair [measurement]. *)
Definition processCommand (measurement : Z * Z)
           (cmd : Z) (datain : ptr) (len : Z) (dataout : ptr) (maxLen : Z)
           (mem : memory) : cmd_result * memory :=
  if cmd =? Commands.GET_LAST_MEASUREMENT then
    if negb (len =? 0) || (maxLen <? 4) then
      (cmd_result_status Status.INVALID_ARGUMENTS, mem)
    else
      let mem := store mem (dataout + 0) (u8 (Z.shiftr (fst measurement) 8)) in
      let mem := store mem (dataout + 1) (u8 (fst measurement)) in
      let mem := store mem (dataout + 2) (u8 (Z.shiftr (snd measurement) 8)) in
      let mem := store mem (dataout + 3) (u8 (snd measurement)) in
      (cmd_result_of Status.COMMAND_OK 4, mem)
  else
    (cmd_result_status Status.COMMAND_NOT_SUPPORTED, mem).

End Main.

(** ** The firmware: dispatcher and command table linked

    [BaseProtocol.cpp] hands the handler one buffer, [data + 1], for the
    request payload and for the reply payload; the handler of [Main.cpp]
    names them [datain] and [dataout]. *)
Definition firmware_processCommand (measurement : Z * Z)
           (cmd : Z) (data : ptr) (len maxLen : Z) (mem : memory) : cmd_result * memory :=
  Main.processCommand measurement cmd data len data maxLen mem.

Definition firmware (measurement : Z * Z)
           (fuel : nat) (address : Z) (data : ptr) (len maxLen : Z) : M Z :=
  TwoWireCallback (firmware_processCommand measurement) fuel address data len maxLen.

(** ** Main.cpp: the hopper measurement

    [Hardware.h] names the pins; their numbers ([PIN_A7], ...) come from
    the board description, so pins are kept as names.  [HIGH] and [LOW]
    are Arduino's 1 and 0. *)

Definition u16 (z : Z) : Z := z mod 65536.

Definition HIGH : Z := 1.
Definition LOW : Z := 0.

Module Hardware.
Inductive pin : Type := H_Led | H_Sens | H_Out | EN_Boost | EN_3V3 | RES_Display.
Definition H_Sens_ADC_Channel : Z := 1.
Definition LED_ON : Z := HIGH.
Definition LED_OFF : Z := LOW.
Definition HOPPER_FULL : Z := HIGH.
Definition HOPPER_EMPTY : Z := LOW.
Definition I2C_ADDRESS : Z := 8.
End Hardware.

Inductive io_event : Type :=
| DigitalWrite (p : Hardware.pin) (level : Z)
| Delay (ms : Z)
| AnalogRead (channel : Z).

(** The global [measurement], the level last written to each pin, and the
    calls to the Arduino core in order. *)
Record board : Type := mkBoard {
  measurement : Z * Z;
  level : Hardware.pin -> Z;
  io : list io_event
}.

Definition pin_eqb (p q : Hardware.pin) : bool :=
  match p, q with
  | Hardware.H_Led, Hardware.H_Led
  | Hardware.H_Sens, Hardware.H_Sens
  | Hardware.H_Out, Hardware.H_Out
  | Hardware.EN_Boost, Hardware.EN_Boost
  | Hardware.EN_3V3, Hardware.EN_3V3
  | Hardware.RES_Display, Hardware.RES_Display => true
  | _, _ => false
  end.

Definition digitalWrite (p : Hardware.pin) (v : Z) (b : board) : board :=
  mkBoard (measurement b)
          (fun q => if pin_eqb q p then v else level b q)
          (io b ++ [DigitalWrite p v]).

Definition delay (ms : Z) (b : board) : board :=
  mkBoard (measurement b) (level b) (io b ++ [Delay ms]).

(** [analogRead]: the call is recorded; what the converter delivers is an
    argument of the function that reads. *)
Definition analogRead (channel : Z) (b : board) : board :=
  mkBoard (measurement b) (level b) (io b ++ [AnalogRead channel]).

Definition hopper_threshold : Z := 20.

(** [measure_hopper], with [ENABLE_SERIAL] undefined as in the source.
    [reading_on] and [reading_off] are the results of the two [analogRead]
    calls; they are stored in [uint16_t] variables, and [off - on] is
    16-bit unsigned arithmetic. *)
Definition measure_hopper (reading_on reading_off : Z) (b : board) : board :=
  let b := digitalWrite Hardware.H_Led Hardware.LED_ON b in
  let b := delay 10 b in
  let b := analogRead Hardware.H_Sens_ADC_Channel b in
  let on := u16 reading_on in
  let b := digitalWrite Hardware.H_Led Hardware.LED_OFF b in
  let b := delay 10 b in
  let b := analogRead Hardware.H_Sens_ADC_Channel b in
  let off := u16 reading_off in
  let b := mkBoard (on, off) (level b) (io b) in
  if (on <? off) && (hopper_threshold <? u16 (off - on))
  then digitalWrite Hardware.H_Out Hardware.HOPPER_EMPTY b
  else digitalWrite Hardware.H_Out Hardware.HOPPER_FULL b.

(** ** InterfaceBoardFirmware.ino: the sketch's own [measure_hopper]

    No delays, the sensor is read through its pin, nothing is stored and
    the threshold is 5. *)
Module Sketch.
Definition hopper_threshold : Z := 5.

Definition measure_hopper (reading_on reading_off : Z) (b : board) : board :=
  let b := digitalWrite Hardware.H_Led Hardware.LED_ON b in
  let b := analogRead Hardware.H_Sens_ADC_Channel b in
  let on := u16 reading_on in
  let b := digitalWrite Hardware.H_Led Hardware.LED_OFF b in
  let b := analogRead Hardware.H_Sens_ADC_Channel b in
  let off := u16 reading_off in
  if (on <? off) && (hopper_threshold <? u16 (off - on))
  then digitalWrite Hardware.H_Out Hardware.HOPPER_EMPTY b
  else digitalWrite Hardware.H_Out Hardware.HOPPER_FULL b.
End Sketch.

(** ** ButtonEncoder.h *)

(** Conversion to [int8_t]. *)
Definition s8 (z : Z) : Z :=
  let r := z mod 256 in if r <? 128 then r else r - 256.

Module ButtonEncoder.

(** The static members, and [prev_reading], the static local of
    [encoder_isr]. *)
Record state : Type := mk {
  button_presses : Z;
  encoder_last_processed : Z;
  encoder_value : Z;
  prev_reading : Z
}.

(** What the constructor leaves, with [prev_reading] at its initialiser. *)
Definition init : state := mk 0 0 0 3.

(** The [while (true)] loop of [process]; [None] when the fuel runs out
    before the [break]. *)
Fixpoint process_loop (fuel : nat) (value last useful_position : Z) : option (Z * Z) :=
  match fuel with
  | O => None
  | S fuel' =>
      let diff := s8 (value - last) in
      if diff <? -3 then
        process_loop fuel' value (u8 (last - 4)) (s8 (useful_position - 1))
      else if 3 <? diff then
        process_loop fuel' value (u8 (last + 4)) (s8 (useful_position + 1))
      else
        Some (last, useful_position)
  end.

(** [process]: the result and the new state.  The assignment inside the
    atomic block replaces the value computed from [useful_position]. *)
Definition process (fuel : nat) (st : state) : option (Z * state) :=
  match process_loop fuel (encoder_value st) (encoder_last_processed st) 0 with
  | None => None
  | Some (last, useful_position) =>
      let returnValue := u16 (Z.shiftl useful_position 8) in
      let returnValue :=
        if button_presses st <? 128
        then Z.land (button_presses st) 0x7F
        else 0x7F in
      Some (returnValue, mk 0 last (encoder_value st) (prev_reading st))
  end.

Definition button_isr (st : state) : state :=
  mk (u8 (button_presses st + 1)) (encoder_last_processed st)
     (encoder_value st) (prev_reading st).

(** This lookup table maps clockwise rotation to positive changes. *)
Definition table : list Z :=
  [0; -1; 1; 2; 1; 0; 2; -1; -1; -2; 0; 1; -2; 1; -1; 0].

(** [encoder_isr]: [pina] and [pinb] are what [digitalRead] returns for
    the two pins ([true] for [HIGH]); the boolean result tells whether
    [process_task.restart()] was called. *)
Definition encoder_isr (pina pinb : bool) (st : state) : bool * state :=
  let reading := u8 (Z.lor (Z.shiftl (Z.b2z pina) 1) (Z.b2z pinb)) in
  let key := u8 (Z.lor (Z.shiftl (prev_reading st) 2) reading) in
  let value := u8 (encoder_value st + u8 (nth (Z.to_nat key) table 0)) in
  (value mod 4 =? 0,
   mk (button_presses st) (encoder_last_processed st) value reading).

End ButtonEncoder.

(** ** Vocabulary of the properties *)

(** Flipping bit [k] of the byte at [p]. *)
Definition flip_bit (mem : memory) (p : ptr) (k : Z) : memory :=
  store mem p (Z.lxor (mem p) (Z.shiftl 1 k)).

(** A memory holding the bytes [l] from address [data] on, zero elsewhere. *)
Definition mem_of_list (data : ptr) (l : list Z) : memory :=
  fun q => if q <? data then 0 else nth (Z.to_nat (q - data)) l 0.

Definition is_processCommand (e : event) : bool :=
  match e with ProcessCommand _ _ _ _ => true | _ => false end.

(** The 256 byte values, for checks by enumeration. *)
Definition all_bytes : list Z := map Z.of_nat (seq 0 256).

(** One step of the CRC register backwards: the low bit of the result tells
    whether the polynomial was xored in. *)
Definition crc8_unshift (data : Z) : Z :=
  if Z.odd data
  then Z.lor (Z.shiftr (Z.lxor data 0x07) 1) 0x80
  else Z.shiftr data 1.

(** Events that touch the frame: a checksum computation, a store, a call
    of the command table. *)
Definition is_frame_event (e : event) : bool :=
  match e with
  | CalcCrc _ _ | Store _ _ | ProcessCommand _ _ _ _ => true
  | WdtEnable _ | ResetDeviceAddress => false
  end.

(** Bytewise xor of two memories. *)
Definition xor_mem (m1 m2 : memory) : memory := fun q => Z.lxor (m1 q) (m2 q).

(** The big-endian 16-bit value in the two bytes at [p]. *)
Definition decode16 (mem : memory) (p : ptr) : Z := 256 * mem p + mem (p + 1).

(** The events a call of the dispatcher adds that are calls of the command
    table. *)
Definition handler_calls (t : list event) : list event := filter is_processCommand t.

(** The position of the encoder within a cycle that goes with a reading of
    the two pins: 0 at a detent (both high). *)
Definition phase (reading : Z) : Z :=
  if reading =? 3 then 0
  else if reading =? 1 then 1
  else if reading =? 0 then 2
  else 3.

(** The reading [encoder_isr] forms from the levels of the two pins. *)
Definition reading_of (pina pinb : bool) : Z :=
  u8 (Z.lor (Z.shiftl (Z.b2z pina) 1) (Z.b2z pinb)).

(** What [encoder_isr] keeps true: the stored reading is one of the four,
    the value is a byte, and the value modulo 4 is the phase of the stored
    reading. *)
Definition encoder_inv (st : ButtonEncoder.state) : Prop :=
  0 <= ButtonEncoder.prev_reading st <= 3 /\
  is_byte (ButtonEncoder.encoder_value st) /\
  ButtonEncoder.encoder_value st mod 4 = phase (ButtonEncoder.prev_reading st).

(** One detent clockwise (A goes low first, and high again first) and one
    counter-clockwise, as sequences of pin levels (A, B). *)
Definition clockwise_detent : list (bool * bool) :=
  [(false, true); (false, false); (true, false); (true, true)].
Definition counterclockwise_detent : list (bool * bool) :=
  [(true, false); (false, false); (false, true); (true, true)].

(** Feeding a sequence of pin readings to [encoder_isr]. *)
Fixpoint encoder_run (readings : list (bool * bool)) (st : ButtonEncoder.state)
  : ButtonEncoder.state :=
  match readings with
  | [] => st
  | (a, b) :: rest => encoder_run rest (snd (ButtonEncoder.encoder_isr a b st))
  end.

Fixpoint presses (n : nat) (st : ButtonEncoder.state) : ButtonEncoder.state :=
  match n with
  | O => st
  | S n' => presses n' (ButtonEncoder.button_isr st)
  end.

(** ** Checksum engine: properties *)

Lemma frame_length mem data n : length (frame mem data n) = n.
Proof. unfold frame. now rewrite length_map, length_seq. Qed.

Lemma frame_S mem data n :
  frame mem data (S n) = frame mem data n ++ [mem (data + Z.of_nat n)].
Proof. unfold frame. now rewrite seq_S, map_app. Qed.

Lemma calcCrc_loop_fold mem data n : forall i crc,
  calcCrc_loop mem data (Z.of_nat i) n crc =
  fold_left _crc8_ccitt_update
            (map (fun k => mem (data + Z.of_nat k)) (seq i n)) crc.
Proof.
  induction n as [|n IH]; intros i crc; simpl; [reflexivity|].
  replace (Z.of_nat i + 1) with (Z.of_nat (S i)) by lia.
  apply IH.
Qed.

Lemma calcCrc_frame mem data len :
  calcCrc mem data len = crc8 (frame mem data (Z.to_nat len)).
Proof. unfold calcCrc, crc8, frame. apply (calcCrc_loop_fold mem data _ 0%nat). Qed.

Lemma crc8_snoc l b : crc8 (l ++ [b]) = _crc8_ccitt_update (crc8 l) b.
Proof. unfold crc8. now rewrite fold_left_app. Qed.

Lemma update_self c : _crc8_ccitt_update c c = 0.
Proof. unfold _crc8_ccitt_update. now rewrite Z.lxor_nilpotent. Qed.

Lemma crc8_append_self l : crc8 (l ++ [crc8 l]) = 0.
Proof. rewrite crc8_snoc. apply update_self. Qed.

Lemma frame_ext mem mem' data n :
  (forall i, 0 <= i < Z.of_nat n -> mem (data + i) = mem' (data + i)) ->
  frame mem data n = frame mem' data n.
Proof.
  intros H. unfold frame. apply map_ext_in. intros k Hk.
  apply in_seq in Hk. apply H. lia.
Qed.

Lemma frame_store_outside mem data n p v :
  (p < data \/ data + Z.of_nat n <= p) ->
  frame (store mem p v) data n = frame mem data n.
Proof.
  intros H. apply frame_ext. intros i Hi. unfold store.
  destruct (Z.eqb_spec (data + i) p); [lia | reflexivity].
Qed.

Lemma store_same mem p v : store mem p v p = v.
Proof. unfold store. now rewrite Z.eqb_refl. Qed.

Lemma store_other mem p v q : q <> p -> store mem p v q = mem q.
Proof. unfold store. intros H. destruct (Z.eqb_spec q p); [contradiction | reflexivity]. Qed.

Lemma calcCrc_nonpos mem data n : n <= 0 -> calcCrc mem data n = 0.
Proof.
  intros H. unfold calcCrc.
  replace (Z.to_nat n) with O by lia. reflexivity.
Qed.

Lemma calcCrc_succ mem data n :
  0 <= n ->
  calcCrc mem data (n + 1) = _crc8_ccitt_update (calcCrc mem data n) (mem (data + n)).
Proof.
  intros H. rewrite !calcCrc_frame.
  replace (Z.to_nat (n + 1)) with (S (Z.to_nat n)) by lia.
  rewrite frame_S, crc8_snoc. now rewrite Z2Nat.id by assumption.
Qed.

Lemma calcCrc_ext mem mem' data n :
  (forall i, 0 <= i < n -> mem' (data + i) = mem (data + i)) ->
  calcCrc mem' data n = calcCrc mem data n.
Proof.
  intros H. rewrite !calcCrc_frame. f_equal.
  apply frame_ext. intros i Hi. apply H. lia.
Qed.

Lemma calcCrc_store_beyond mem data n p v :
  data + n <= p -> calcCrc (store mem p v) data n = calcCrc mem data n.
Proof.
  intros H. apply calcCrc_ext. intros i Hi. apply store_other. lia.
Qed.

Lemma calcCrc_store_crc mem data n :
  0 <= n -> calcCrc (store mem (data + n) (calcCrc mem data n)) data (n + 1) = 0.
Proof.
  intros H. rewrite calcCrc_succ by assumption.
  rewrite store_same, calcCrc_store_beyond by lia.
  apply update_self.
Qed.

(** C2.  [calcCrc] depends on the first [n] bytes of the buffer only (it is
    the fold [crc8] over them, and two memories that agree there have the
    same checksum); storing its result as byte [n] makes the checksum over
    [n + 1] bytes zero; so every frame whose trailing byte is the checksum
    of the bytes before it checksums to zero over its whole length. *)
Theorem calcCrc_trailing_checksum_zero :
  forall (mem : memory) (data : ptr) (n : Z),
    calcCrc mem data n = crc8 (frame mem data (Z.to_nat n)) /\
    (forall mem' : memory,
        (forall i, 0 <= i < n -> mem' (data + i) = mem (data + i)) ->
        calcCrc mem' data n = calcCrc mem data n) /\
    calcCrc (store mem (data + n) (calcCrc mem data n)) data (n + 1) = 0 /\
    (mem (data + n) = calcCrc mem data n -> calcCrc mem data (n + 1) = 0).
Proof.
  intros mem data n. split; [apply calcCrc_frame|].
  split; [intros mem'; apply calcCrc_ext|].
  destruct (Z_lt_le_dec n 0) as [Hneg | Hpos].
  - split; intros; apply calcCrc_nonpos; lia.
  - split.
    + apply calcCrc_store_crc, Hpos.
    + intros H. rewrite calcCrc_succ by assumption.
      rewrite H. apply update_self.
Qed.

Lemma calcCrc_trailing_checksum_zero_witness :
  calcCrc (mem_of_list 16 [0x80; 0x89]) 16 (1 + 1) = 0.
Proof.
  apply (proj2 (proj2 (proj2
           (calcCrc_trailing_checksum_zero (mem_of_list 16 [0x80; 0x89]) 16 1)))).
  vm_compute. reflexivity.
Defined.

(** ** Running the dispatcher *)

Lemma call_calcCrc_run data len m :
  call_calcCrc data len m =
  (Some (calcCrc (m_mem m) data len),
   mkMachine (m_mem m) (m_trace m ++ [CalcCrc data len])).
Proof. reflexivity. Qed.

Lemma append_crc_run data len m :
  append_crc data len m =
  (Some (u8 (len + 1)),
   mkMachine (store (m_mem m) (data + len) (calcCrc (m_mem m) data len))
             (m_trace m ++ [CalcCrc data len;
                            Store (data + len) (calcCrc (m_mem m) data len)])).
Proof.
  unfold append_crc, bind. rewrite call_calcCrc_run.
  unfold store_byte, ret. simpl. now rewrite <- app_assoc.
Qed.

Lemma while_true_spins (A : Type) (fuel : nat) (m : machine) :
  while_true (A := A) fuel (ret tt) m = (None, m).
Proof.
  induction fuel as [|fuel IH]; simpl; [reflexivity|].
  unfold bind, ret. exact IH.
Qed.

(** The status-only reply: [data[0] = status; len = 1;] and lines 52-55. *)
Lemma status_reply_run status data m :
  (store_byte data status ;;; append_crc data 1) m =
  (Some 2,
   mkMachine (store (store (m_mem m) data status) (data + 1) (crc8 [status]))
             (m_trace m ++ [Store data status; CalcCrc data 1;
                            Store (data + 1) (crc8 [status])])).
Proof.
  unfold bind at 1. unfold store_byte at 1.
  rewrite append_crc_run. cbn [m_mem m_trace].
  assert (Hc : calcCrc (store (m_mem m) data status) data 1 = crc8 [status]).
  { change 1 with (0 + 1). rewrite calcCrc_succ by lia.
    rewrite Z.add_0_r, store_same. reflexivity. }
  rewrite Hc, <- app_assoc. reflexivity.
Qed.

(** ** The checksum detects every change of a single byte *)

Lemma in_all_bytes b : is_byte b -> In b all_bytes.
Proof.
  intros [H0 H1]. unfold all_bytes. apply in_map_iff.
  exists (Z.to_nat b). split; [lia | apply in_seq; lia].
Qed.

Lemma forall_bytes (P : Z -> bool) :
  forallb P all_bytes = true -> forall b, is_byte b -> P b = true.
Proof.
  intros H b Hb. rewrite forallb_forall in H. apply H, in_all_bytes, Hb.
Qed.

Lemma is_byte_u8 z : is_byte (u8 z).
Proof. unfold is_byte, u8. apply Z.mod_pos_bound. lia. Qed.

Lemma crc8_shift_byte x : is_byte x -> is_byte (crc8_shift x).
Proof.
  intros Hx.
  assert (H : ((0 <=? crc8_shift x) && (crc8_shift x <? 256))%bool = true).
  { revert x Hx. apply forall_bytes. vm_compute. reflexivity. }
  apply andb_true_iff in H. unfold is_byte. lia.
Qed.

Lemma crc8_unshift_shift x : is_byte x -> crc8_unshift (crc8_shift x) = x.
Proof.
  intros Hx. apply Z.eqb_eq. revert x Hx.
  apply forall_bytes. vm_compute. reflexivity.
Qed.

Lemma crc8_shifts_byte n : forall x, is_byte x -> is_byte (crc8_shifts n x).
Proof.
  induction n as [|n IH]; intros x Hx; simpl; [assumption|].
  apply IH, crc8_shift_byte, Hx.
Qed.

Lemma crc8_shifts_inj n : forall x y,
  is_byte x -> is_byte y -> crc8_shifts n x = crc8_shifts n y -> x = y.
Proof.
  induction n as [|n IH]; intros x y Hx Hy H; simpl in H; [assumption|].
  apply IH in H; try (apply crc8_shift_byte; assumption).
  rewrite <- (crc8_unshift_shift x Hx), <- (crc8_unshift_shift y Hy).
  now rewrite H.
Qed.

Lemma lxor_byte a b : is_byte a -> is_byte b -> is_byte (Z.lxor a b).
Proof.
  intros Ha Hb.
  assert (H : forallb (fun y => (0 <=? Z.lxor a y) && (Z.lxor a y <? 256))%bool
                      all_bytes = true).
  { revert a Ha. apply forall_bytes. vm_compute. reflexivity. }
  rewrite forallb_forall in H. specialize (H b (in_all_bytes b Hb)).
  apply andb_true_iff in H. unfold is_byte. lia.
Qed.

Lemma lxor_cancel_l a b c : Z.lxor a b = Z.lxor a c -> b = c.
Proof.
  intros H.
  rewrite <- (Z.lxor_0_l b), <- (Z.lxor_0_l c), <- (Z.lxor_nilpotent a).
  now rewrite !Z.lxor_assoc, H.
Qed.

Lemma lxor_cancel_r a b c : Z.lxor b a = Z.lxor c a -> b = c.
Proof. rewrite !(Z.lxor_comm _ a). apply lxor_cancel_l. Qed.

Lemma update_byte c d : is_byte c -> is_byte d -> is_byte (_crc8_ccitt_update c d).
Proof. intros Hc Hd. apply crc8_shifts_byte, lxor_byte; assumption. Qed.

Lemma update_inj_data c d d' :
  is_byte c -> is_byte d -> is_byte d' ->
  _crc8_ccitt_update c d = _crc8_ccitt_update c d' -> d = d'.
Proof.
  intros Hc Hd Hd' H. apply crc8_shifts_inj in H; try (apply lxor_byte; assumption).
  eapply lxor_cancel_l, H.
Qed.

Lemma update_inj_crc c c' d :
  is_byte c -> is_byte c' -> is_byte d ->
  _crc8_ccitt_update c d = _crc8_ccitt_update c' d -> c = c'.
Proof.
  intros Hc Hc' Hd H. apply crc8_shifts_inj in H; try (apply lxor_byte; assumption).
  eapply lxor_cancel_r, H.
Qed.

Lemma fold_update_byte l : forall c,
  is_byte c -> Forall is_byte l -> is_byte (fold_left _crc8_ccitt_update l c).
Proof.
  induction l as [|b l IH]; intros c Hc Hl; simpl; [assumption|].
  inversion Hl; subst. apply IH; [apply update_byte|]; assumption.
Qed.

Lemma fold_update_inj l : forall c c',
  is_byte c -> is_byte c' -> Forall is_byte l ->
  fold_left _crc8_ccitt_update l c = fold_left _crc8_ccitt_update l c' -> c = c'.
Proof.
  induction l as [|b l IH]; intros c c' Hc Hc' Hl H; simpl in H; [assumption|].
  inversion Hl; subst.
  apply IH in H; try apply update_byte; try assumption.
  eapply update_inj_crc; eassumption.
Qed.

Lemma crc8_single_byte_change l1 l2 b b' :
  Forall is_byte l1 -> Forall is_byte l2 -> is_byte b -> is_byte b' ->
  crc8 (l1 ++ b :: l2) = crc8 (l1 ++ b' :: l2) -> b = b'.
Proof.
  intros H1 H2 Hb Hb'. unfold crc8. rewrite !fold_left_app. simpl. intros H.
  assert (Hc : is_byte (fold_left _crc8_ccitt_update l1 0)).
  { apply fold_update_byte; [unfold is_byte; lia | assumption]. }
  apply fold_update_inj in H; try apply update_byte; try assumption.
  eapply update_inj_data; eassumption.
Qed.

Lemma flip_changes_byte b k :
  is_byte b -> 0 <= k < 8 ->
  is_byte (Z.lxor b (Z.shiftl 1 k)) /\ Z.lxor b (Z.shiftl 1 k) <> b.
Proof.
  intros Hb Hk.
  assert (Hbit : is_byte (Z.shiftl 1 k) /\ Z.shiftl 1 k <> 0).
  { rewrite Z.shiftl_1_l. unfold is_byte.
    assert (2 ^ k < 2 ^ 8) by (apply Z.pow_lt_mono_r; lia).
    assert (0 < 2 ^ k) by (apply Z.pow_pos_nonneg; lia).
    lia. }
  destruct Hbit as [Hbyte Hnz]. split; [apply lxor_byte; assumption|].
  intros H. apply Hnz. apply (lxor_cancel_l b). now rewrite Z.lxor_0_r.
Qed.

Lemma frame_split mem data j n :
  (j < n)%nat ->
  frame mem data n =
  frame mem data j ++ mem (data + Z.of_nat j)
    :: map (fun i => mem (data + Z.of_nat i)) (seq (S j) (n - S j)).
Proof.
  intros H. unfold frame.
  replace n with (j + S (n - S j))%nat at 1 by lia.
  rewrite seq_app, map_app. reflexivity.
Qed.

Lemma frame_bytes mem data n :
  (forall i, 0 <= i < Z.of_nat n -> is_byte (mem (data + i))) ->
  Forall is_byte (frame mem data n).
Proof.
  intros H. apply Forall_forall. intros b Hb.
  unfold frame in Hb. apply in_map_iff in Hb. destruct Hb as [i [<- Hi]].
  apply in_seq in Hi. apply H. lia.
Qed.

Lemma tail_bytes mem data j n :
  (forall i, 0 <= i < Z.of_nat n -> is_byte (mem (data + i))) ->
  Forall is_byte (map (fun i => mem (data + Z.of_nat i)) (seq (S j) (n - S j))).
Proof.
  intros H. apply Forall_forall. intros b Hb.
  apply in_map_iff in Hb. destruct Hb as [i [<- Hi]].
  apply in_seq in Hi. apply H. lia.
Qed.

(** A frame that checksums to zero no longer does after one of its bits is
    flipped. *)
Lemma calcCrc_flip_nonzero mem data len j k :
  (forall i, 0 <= i < len -> is_byte (mem (data + i))) ->
  calcCrc mem data len = 0 ->
  0 <= j < len -> 0 <= k < 8 ->
  calcCrc (flip_bit mem (data + j) k) data len <> 0.
Proof.
  intros Hbytes Hzero Hj Hk Hflip.
  rewrite calcCrc_frame in Hzero, Hflip.
  set (n := Z.to_nat len) in *. set (jn := Z.to_nat j).
  assert (Hjn : (jn < n)%nat) by (subst jn n; lia).
  assert (Hbn : forall i, 0 <= i < Z.of_nat n -> is_byte (mem (data + i))).
  { intros i Hi. apply Hbytes. subst n. lia. }
  destruct (flip_changes_byte (mem (data + j)) k) as [Hfb Hne];
    [apply Hbytes; lia | assumption |].
  apply Hne.
  rewrite (frame_split _ _ jn n Hjn) in Hzero.
  rewrite (frame_split _ _ jn n Hjn) in Hflip.
  unfold flip_bit in Hflip.
  rewrite frame_store_outside in Hflip by (subst jn; lia).
  replace (Z.of_nat jn) with j in * by (subst jn; lia).
  rewrite store_same in Hflip.
  rewrite (map_ext_in _ (fun i => mem (data + Z.of_nat i))) in Hflip.
  2:{ intros i Hi. apply in_seq in Hi. apply store_other. subst jn. lia. }
  rewrite <- Hzero in Hflip.
  apply crc8_single_byte_change in Hflip; try assumption.
  - apply frame_bytes. intros i Hi. apply Hbn. lia.
  - apply tail_bytes. assumption.
  - apply Hbytes. lia.
Qed.

(** ** The frame dispatcher *)

Section DispatcherProperties.

Variable processCommand : Z -> ptr -> Z -> Z -> memory -> cmd_result * memory.

Lemma dispatch_general_call fuel address data len maxLen m :
  address = 0 ->
  TwoWireCallback processCommand fuel address data len maxLen m = handleGeneralCall fuel data len maxLen m.
Proof. intros ->. reflexivity. Qed.

Lemma dispatch_no_room fuel address data len maxLen m :
  address <> 0 -> maxLen < 2 ->
  TwoWireCallback processCommand fuel address data len maxLen m = (Some 0, m).
Proof.
  intros Ha Hm. unfold TwoWireCallback.
  destruct (Z.eqb_spec address 0); [contradiction|].
  destruct (Z.ltb_spec maxLen 2); [reflexivity | lia].
Qed.

Lemma dispatch_short fuel address data len maxLen m :
  address <> 0 -> 2 <= maxLen -> len < 2 ->
  TwoWireCallback processCommand fuel address data len maxLen m =
  (Some 2,
   mkMachine
     (store (store (m_mem m) data Status.INVALID_TRANSFER) (data + 1)
            (crc8 [Status.INVALID_TRANSFER]))
     (m_trace m ++ [Store data Status.INVALID_TRANSFER; CalcCrc data 1;
                    Store (data + 1) (crc8 [Status.INVALID_TRANSFER])])).
Proof.
  intros Ha Hm Hl. unfold TwoWireCallback.
  destruct (Z.eqb_spec address 0); [contradiction|].
  destruct (Z.ltb_spec maxLen 2); [lia|].
  destruct (Z.ltb_spec len 2); [|lia].
  apply status_reply_run.
Qed.

Lemma dispatch_bad_crc fuel address data len maxLen m :
  address <> 0 -> 2 <= maxLen -> 2 <= len ->
  calcCrc (m_mem m) data len <> 0 ->
  TwoWireCallback processCommand fuel address data len maxLen m =
  (Some 2,
   mkMachine
     (store (store (m_mem m) data Status.INVALID_CRC) (data + 1)
            (crc8 [Status.INVALID_CRC]))
     (m_trace m ++ [CalcCrc data len; Store data Status.INVALID_CRC;
                    CalcCrc data 1; Store (data + 1) (crc8 [Status.INVALID_CRC])])).
Proof.
  intros Ha Hm Hl Hc. unfold TwoWireCallback.
  destruct (Z.eqb_spec address 0); [contradiction|].
  destruct (Z.ltb_spec maxLen 2); [lia|].
  destruct (Z.ltb_spec len 2); [lia|].
  unfold bind at 1. rewrite call_calcCrc_run.
  destruct (Z.eqb_spec (calcCrc (m_mem m) data len) 0); [contradiction|].
  cbn [negb]. rewrite status_reply_run. cbn [m_mem m_trace].
  now rewrite <- app_assoc.
Qed.

Lemma dispatch_command fuel address data len maxLen m res mem' :
  address <> 0 -> 2 <= maxLen -> 2 <= len ->
  calcCrc (m_mem m) data len = 0 ->
  processCommand (m_mem m data) (data + 1) (u8 (len - 2)) (u8 (maxLen - 2)) (m_mem m)
    = (res, mem') ->
  TwoWireCallback processCommand fuel address data len maxLen m =
  let call := ProcessCommand (m_mem m data) (data + 1) (u8 (len - 2)) (u8 (maxLen - 2)) in
  if CmdResult.status res =? Status.NO_REPLY then
    (Some 0, mkMachine mem' (m_trace m ++ [CalcCrc data len; call]))
  else
    let len' := u8 (CmdResult.len res + 1) in
    let mem1 := store mem' data (CmdResult.status res) in
    let crc := calcCrc mem1 data len' in
    (Some (u8 (len' + 1)),
     mkMachine (store mem1 (data + len') crc)
               (m_trace m ++ [CalcCrc data len; call;
                              Store data (CmdResult.status res);
                              CalcCrc data len'; Store (data + len') crc])).
Proof.
  intros Ha Hm Hl Hc Hres. unfold TwoWireCallback.
  destruct (Z.eqb_spec address 0); [contradiction|].
  destruct (Z.ltb_spec maxLen 2); [lia|].
  destruct (Z.ltb_spec len 2); [lia|].
  unfold bind at 1. rewrite call_calcCrc_run, Hc. cbn [Z.eqb negb].
  unfold bind at 1. unfold load at 1. cbn [m_mem m_trace].
  unfold bind at 1. unfold call_processCommand, bind at 1, emit.
  cbn [m_mem m_trace]. rewrite Hres.
  destruct (CmdResult.status res =? Status.NO_REPLY).
  - unfold ret. now rewrite <- app_assoc.
  - unfold bind at 1. unfold store_byte at 1. rewrite append_crc_run.
    cbn [m_mem m_trace]. now rewrite <- !app_assoc.
Qed.

(** C3.  An addressed call with [len >= 2] and [maxLen >= 2] on a frame
    that is a well-formed frame with one bit flipped is answered with the
    status [INVALID_CRC]: the reply is the two bytes [[INVALID_CRC; crc]],
    its status is not [INVALID_TRANSFER], and the trace of the call holds
    no call of the command table. *)
Theorem corrupted_frame_invalid_crc :
  forall (fuel : nat) (address : Z) (data : ptr) (len maxLen : Z)
         (m : machine) (j k : Z),
    address <> 0 -> 2 <= len -> 2 <= maxLen ->
    (forall i, 0 <= i < len -> is_byte (m_mem m (data + i))) ->
    calcCrc (m_mem m) data len = 0 ->
    0 <= j < len -> 0 <= k < 8 ->
    let corrupted := mkMachine (flip_bit (m_mem m) (data + j) k) (m_trace m) in
    let r := TwoWireCallback processCommand fuel address data len maxLen corrupted in
    fst r = Some 2 /\
    frame (m_mem (snd r)) data 2 = [Status.INVALID_CRC; crc8 [Status.INVALID_CRC]] /\
    m_mem (snd r) data <> Status.INVALID_TRANSFER /\
    m_trace (snd r) =
      m_trace m ++ [CalcCrc data len; Store data Status.INVALID_CRC;
                    CalcCrc data 1; Store (data + 1) (crc8 [Status.INVALID_CRC])] /\
    filter is_processCommand (m_trace (snd r)) = filter is_processCommand (m_trace m).
Proof.
  intros fuel address data len maxLen m j k Ha Hl Hm Hbytes Hzero Hj Hk corrupted r.
  assert (Hr : r = (Some 2,
                    mkMachine
                      (store (store (m_mem corrupted) data Status.INVALID_CRC) (data + 1)
                             (crc8 [Status.INVALID_CRC]))
                      (m_trace corrupted ++
                         [CalcCrc data len; Store data Status.INVALID_CRC;
                          CalcCrc data 1; Store (data + 1) (crc8 [Status.INVALID_CRC])]))).
  { apply dispatch_bad_crc; try assumption.
    apply calcCrc_flip_nonzero; assumption. }
  rewrite Hr. cbn [fst snd m_mem m_trace corrupted].
  split; [reflexivity|]. split.
  { unfold frame. cbn [seq map Z.of_nat]. rewrite Z.add_0_r.
    rewrite store_other by lia. rewrite store_same.
    change (Z.pos (Pos.of_succ_nat 0)) with 1. now rewrite store_same. }
  split.
  { rewrite store_other by lia. rewrite store_same. discriminate. }
  split; [reflexivity|].
  rewrite filter_app. cbn. now rewrite app_nil_r.
Qed.

(** C4.  An addressed call with [len < 2] and [maxLen >= 2] returns 2 and
    leaves the two bytes [[INVALID_TRANSFER; crc]] in the buffer, where
    [crc] is the checksum of the status byte, so that the two bytes
    checksum to zero. *)
Theorem short_frame_invalid_transfer :
  forall (fuel : nat) (address : Z) (data : ptr) (len maxLen : Z) (m : machine),
    address <> 0 -> len < 2 -> 2 <= maxLen ->
    let r := TwoWireCallback processCommand fuel address data len maxLen m in
    fst r = Some 2 /\
    frame (m_mem (snd r)) data 2 =
      [Status.INVALID_TRANSFER; crc8 [Status.INVALID_TRANSFER]] /\
    calcCrc (m_mem (snd r)) data 2 = 0 /\
    crc8 [Status.INVALID_TRANSFER; crc8 [Status.INVALID_TRANSFER]] = 0.
Proof.
  intros fuel address data len maxLen m Ha Hl Hm r.
  subst r. rewrite dispatch_short by assumption. cbn [fst snd m_mem].
  assert (Hf : frame (store (store (m_mem m) data Status.INVALID_TRANSFER) (data + 1)
                            (crc8 [Status.INVALID_TRANSFER])) data 2
               = [Status.INVALID_TRANSFER; crc8 [Status.INVALID_TRANSFER]]).
  { unfold frame. cbn [seq map Z.of_nat]. rewrite Z.add_0_r.
    rewrite store_other by lia. rewrite store_same.
    change (Z.pos (Pos.of_succ_nat 0)) with 1. now rewrite store_same. }
  split; [reflexivity|]. split; [exact Hf|].
  rewrite calcCrc_frame. change (Z.to_nat 2) with 2%nat. rewrite Hf.
  split; reflexivity.
Qed.

(** C7.  An addressed call with [maxLen < 2] returns 0 and changes nothing:
    the memory, hence every byte of the buffer, is as before and the trace
    records no store (and no other event). *)
Theorem no_room_no_reply :
  forall (fuel : nat) (address : Z) (data : ptr) (len maxLen : Z) (m : machine),
    address <> 0 -> maxLen < 2 ->
    let r := TwoWireCallback processCommand fuel address data len maxLen m in
    fst r = Some 0 /\
    (forall q : ptr, m_mem (snd r) q = m_mem m q) /\
    m_trace (snd r) = m_trace m /\
    snd r = m.
Proof.
  intros fuel address data len maxLen m Ha Hm r.
  subst r. rewrite dispatch_no_room by assumption.
  repeat split.
Qed.

Lemma u8_le z : 0 <= z -> 0 <= u8 z <= z.
Proof.
  intros H. unfold u8. split.
  - apply Z.mod_pos_bound. lia.
  - apply Z.mod_le; lia.
Qed.

(** C6.  In an addressed call where the command handler, when the
    dispatcher invokes it, declares a payload length of at most
    [maxLen - 2], the dispatcher returns a length of at most [maxLen] and
    every store it performs goes to an index below [maxLen]. *)
Theorem dispatcher_within_capacity :
  forall (fuel : nat) (address : Z) (data : ptr) (len maxLen : Z) (m : machine),
    address <> 0 -> 0 <= maxLen ->
    (2 <= maxLen -> 2 <= len -> calcCrc (m_mem m) data len = 0 ->
     0 <= CmdResult.len
            (fst (processCommand (m_mem m data) (data + 1)
                                 (u8 (len - 2)) (u8 (maxLen - 2)) (m_mem m)))
       <= maxLen - 2) ->
    let r := TwoWireCallback processCommand fuel address data len maxLen m in
    (exists n, fst r = Some n /\ 0 <= n <= maxLen) /\
    (exists evs, m_trace (snd r) = m_trace m ++ evs /\
                 forall p v, In (Store p v) evs -> data <= p < data + maxLen).
Proof.
  intros fuel address data len maxLen m Ha Hcap Hdecl r. subst r.
  destruct (Z_lt_le_dec maxLen 2) as [Hm | Hm].
  { rewrite dispatch_no_room by assumption. cbn [fst snd]. split.
    - exists 0. split; [reflexivity | lia].
    - exists []. split; [now rewrite app_nil_r | intros p v []]. }
  destruct (Z_lt_le_dec len 2) as [Hl | Hl].
  { rewrite dispatch_short by assumption. cbn [fst snd m_trace]. split.
    - exists 2. split; [reflexivity | lia].
    - eexists. split; [reflexivity|].
      intros p v [H | [H | [H | []]]]; inversion H; subst; lia. }
  destruct (Z.eq_dec (calcCrc (m_mem m) data len) 0) as [Hc | Hc].
  2:{ rewrite dispatch_bad_crc by assumption. cbn [fst snd m_trace]. split.
      - exists 2. split; [reflexivity | lia].
      - eexists. split; [reflexivity|].
        intros p v [H | [H | [H | [H | []]]]]; inversion H; subst; lia. }
  specialize (Hdecl Hm Hl Hc).
  destruct (processCommand (m_mem m data) (data + 1) (u8 (len - 2)) (u8 (maxLen - 2))
                           (m_mem m)) as [res mem'] eqn:Hres.
  cbn [fst] in Hdecl.
  rewrite (dispatch_command _ _ _ _ _ _ res mem') by assumption.
  cbv zeta.
  destruct (CmdResult.status res =? Status.NO_REPLY); cbn [fst snd m_trace].
  - split.
    + exists 0. split; [reflexivity | lia].
    + eexists. split; [reflexivity|].
      intros p v [H | [H | []]]; inversion H.
  - pose proof (u8_le (CmdResult.len res + 1)) as H1.
    pose proof (u8_le (u8 (CmdResult.len res + 1) + 1)) as H2.
    split.
    + eexists. split; [reflexivity | lia].
    + eexists. split; [reflexivity|].
      intros p v [H | [H | [H | [H | [H | []]]]]]; inversion H; subst; lia.
Qed.

(** C8.  A general call with [len >= 1] and [buffer[0] = RESET] arms the
    watchdog and then spins: whatever the fuel, the call has not returned,
    the only event is [wdt_enable(WDTO_15MS)] and the buffer holds no
    reply (the memory is as before). *)
Theorem general_call_reset_never_returns :
  forall (fuel : nat) (address : Z) (data : ptr) (len maxLen : Z) (m : machine),
    address = 0 -> 1 <= len -> m_mem m data = GeneralCallCommands.RESET ->
    TwoWireCallback processCommand fuel address data len maxLen m =
    (None, mkMachine (m_mem m) (m_trace m ++ [WdtEnable WDTO_15MS])).
Proof.
  intros fuel address data len maxLen m Ha Hl Hd.
  rewrite dispatch_general_call by assumption.
  unfold handleGeneralCall. rewrite Hd.
  destruct (Z.leb_spec 1 len); [|lia]. cbn [Z.eqb Pos.eqb andb GeneralCallCommands.RESET].
  unfold bind, emit. apply while_true_spins.
Qed.

Lemma handleGeneralCall_cases fuel data len maxLen m :
  handleGeneralCall fuel data len maxLen m =
    (None, mkMachine (m_mem m) (m_trace m ++ [WdtEnable WDTO_15MS])) \/
  handleGeneralCall fuel data len maxLen m =
    (Some 0, mkMachine (m_mem m) (m_trace m ++ [ResetDeviceAddress])) \/
  handleGeneralCall fuel data len maxLen m = (Some 0, m).
Proof.
  unfold handleGeneralCall.
  destruct ((1 <=? len) && (m_mem m data =? GeneralCallCommands.RESET))%bool.
  - left. unfold bind, emit. apply while_true_spins.
  - right.
    destruct ((1 <=? len) && (m_mem m data =? GeneralCallCommands.RESET_ADDRESS))%bool.
    + left. reflexivity.
    + right. reflexivity.
Qed.

(** C9.  For a general call: with [len >= 1] and
    [buffer[0] = RESET_ADDRESS] the bus-address reset is invoked exactly
    once (it is the only new event) and the call returns 0; with [len = 0],
    or a first byte that is neither [RESET] nor [RESET_ADDRESS], nothing is
    invoked and the call returns 0; and no general call produces a reply
    (it returns 0 or does not return, and leaves the memory as it is) or
    computes a checksum (no new event touches the frame). *)
Theorem general_call_behaviour :
  forall (fuel : nat) (address : Z) (data : ptr) (len maxLen : Z) (m : machine),
    address = 0 ->
    let r := TwoWireCallback processCommand fuel address data len maxLen m in
    (1 <= len -> m_mem m data = GeneralCallCommands.RESET_ADDRESS ->
     r = (Some 0, mkMachine (m_mem m) (m_trace m ++ [ResetDeviceAddress]))) /\
    (len = 0 \/ (m_mem m data <> GeneralCallCommands.RESET /\
                 m_mem m data <> GeneralCallCommands.RESET_ADDRESS) ->
     r = (Some 0, m)) /\
    ((fst r = Some 0 \/ fst r = None) /\
     m_mem (snd r) = m_mem m /\
     exists evs, m_trace (snd r) = m_trace m ++ evs /\
                 existsb is_frame_event evs = false).
Proof.
  intros fuel address data len maxLen m Ha r. subst r.
  rewrite dispatch_general_call by assumption.
  split; [|split].
  - intros Hl Hd. unfold handleGeneralCall. rewrite Hd.
    destruct (Z.leb_spec 1 len); [|lia]. reflexivity.
  - intros H. unfold handleGeneralCall.
    destruct H as [-> | [H1 H2]]; [reflexivity|].
    destruct (Z.eqb_spec (m_mem m data) GeneralCallCommands.RESET); [contradiction|].
    destruct (Z.eqb_spec (m_mem m data) GeneralCallCommands.RESET_ADDRESS);
      [contradiction|].
    rewrite !andb_false_r. reflexivity.
  - destruct (handleGeneralCall_cases fuel data len maxLen m) as [H | [H | H]];
      rewrite H; cbn [fst snd m_mem m_trace].
    + split; [now right|]. split; [reflexivity|]. now exists [WdtEnable WDTO_15MS].
    + split; [now left|]. split; [reflexivity|]. now exists [ResetDeviceAddress].
    + split; [now left|]. split; [reflexivity|]. exists []. now rewrite app_nil_r.
Qed.

End DispatcherProperties.

(** ** Replies to commands *)

(** The reply of the dispatcher to a handler that declares a payload
    length [p] with [p + 2] representable in a byte. *)
Lemma dispatch_command_reply processCommand fuel address data len maxLen m s p mem' :
  address <> 0 -> 2 <= maxLen -> 2 <= len ->
  calcCrc (m_mem m) data len = 0 ->
  processCommand (m_mem m data) (data + 1) (u8 (len - 2)) (u8 (maxLen - 2)) (m_mem m)
    = (CmdResult.mk s p, mem') ->
  s <> Status.NO_REPLY ->
  0 <= p <= 253 ->
  let r := TwoWireCallback processCommand fuel address data len maxLen m in
  fst r = Some (p + 2) /\
  m_mem (snd r) data = s /\
  (forall i, 1 <= i <= p -> m_mem (snd r) (data + i) = mem' (data + i)) /\
  calcCrc (m_mem (snd r)) data (p + 2) = 0.
Proof.
  intros Ha Hm Hl Hc Hres Hs Hp r. subst r.
  rewrite (dispatch_command _ _ _ _ _ _ _ _ _ Ha Hm Hl Hc Hres).
  cbv zeta. cbn [CmdResult.status CmdResult.len].
  destruct (Z.eqb_spec s Status.NO_REPLY); [contradiction|].
  assert (H1 : u8 (p + 1) = p + 1) by (apply Z.mod_small; lia).
  rewrite H1.
  assert (H2 : u8 (p + 1 + 1) = p + 2).
  { unfold u8. rewrite Z.mod_small by lia. lia. }
  rewrite H2. cbn [fst snd m_mem].
  split; [reflexivity|]. split; [|split].
  - rewrite store_other by lia. apply store_same.
  - intros i Hi. rewrite !store_other by lia. reflexivity.
  - replace (p + 2) with (p + 1 + 1) by lia. apply calcCrc_store_crc. lia.
Qed.

Lemma firmware_processCommand_len measurement cmd data len maxLen mem :
  0 <= CmdResult.len (fst (firmware_processCommand measurement cmd data len maxLen mem)) <= 4.
Proof.
  unfold firmware_processCommand, Main.processCommand.
  destruct (cmd =? Commands.GET_LAST_MEASUREMENT); [|cbn; lia].
  destruct (negb (len =? 0) || (maxLen <? 4))%bool; cbn; lia.
Qed.

(** C1.  For every addressed call on a well-formed frame ([len >= 2],
    [maxLen >= 2], checksum zero over all [len] bytes) for which the command
    table returns a status [s] other than [NO_REPLY] with declared payload
    length [p], the dispatcher returns [p + 2]; the first byte of the reply
    is [s], bytes 1..[p] are the bytes the handler left there, and the
    checksum over all [p + 2] bytes of the reply is zero. *)
Theorem known_command_reply :
  forall (measurement : Z * Z) (fuel : nat) (address : Z) (data : ptr)
         (len maxLen : Z) (m : machine) (s p : Z) (mem' : memory),
    address <> 0 -> 2 <= len -> 2 <= maxLen ->
    calcCrc (m_mem m) data len = 0 ->
    firmware_processCommand measurement (m_mem m data) (data + 1)
                            (u8 (len - 2)) (u8 (maxLen - 2)) (m_mem m)
      = (CmdResult.mk s p, mem') ->
    s <> Status.NO_REPLY ->
    let r := firmware measurement fuel address data len maxLen m in
    fst r = Some (p + 2) /\
    m_mem (snd r) data = s /\
    (forall i, 1 <= i <= p -> m_mem (snd r) (data + i) = mem' (data + i)) /\
    calcCrc (m_mem (snd r)) data (p + 2) = 0.
Proof.
  intros measurement fuel address data len maxLen m s p mem' Ha Hl Hm Hc Hres Hs.
  unfold firmware. apply dispatch_command_reply; try assumption.
  pose proof (firmware_processCommand_len measurement (m_mem m data) (data + 1)
                (u8 (len - 2)) (u8 (maxLen - 2)) (m_mem m)) as Hp.
  rewrite Hres in Hp. cbn in Hp. lia.
Qed.

(** The request of the scenario with its checksum byte, and the machine the
    scenario starts from. *)
Lemma valid_request_checksum : crc8 [Commands.GET_LAST_MEASUREMENT] = 0x89.
Proof. reflexivity. Qed.

(** C5, as the spec words it: the request [[0x80; 0x00]] does not checksum
    to zero, so the dispatcher answers [[INVALID_CRC; crc]] with length 2,
    not the six-byte measurement reply. *)
Lemma scenario_zero_checksum_rejected :
  fst (firmware (0x1234, 0x5678) 0 8 16 2 6
                (mkMachine (mem_of_list 16 [0x80; 0x00]) [])) = Some 2 /\
  frame (m_mem (snd (firmware (0x1234, 0x5678) 0 8 16 2 6
                              (mkMachine (mem_of_list 16 [0x80; 0x00]) [])))) 16 2
    = [Status.INVALID_CRC; 0x1C] /\
  ~ (fst (firmware (0x1234, 0x5678) 0 8 16 2 6
                   (mkMachine (mem_of_list 16 [0x80; 0x00]) [])) = Some 6 /\
     exists crc,
       frame (m_mem (snd (firmware (0x1234, 0x5678) 0 8 16 2 6
                                   (mkMachine (mem_of_list 16 [0x80; 0x00]) [])))) 16 6
       = [Status.COMMAND_OK; 0x12; 0x34; 0x56; 0x78; crc]).
Proof.
  split; [reflexivity|]. split; [reflexivity|].
  intros [H _]. vm_compute in H. discriminate H.
Qed.

(** C5, amended.  For the addressed request [[0x80; 0x89]] (command
    [GET_LAST_MEASUREMENT], [len = 2], no payload, the second byte being
    the checksum of the first) with [maxLen = 6] and the stored
    measurements [(0x1234, 0x5678)], the dispatcher returns 6 and the reply
    is [[COMMAND_OK; 0x12; 0x34; 0x56; 0x78; 0x1C]], whose last byte makes
    it checksum to zero. *)
Theorem get_last_measurement_scenario :
  forall (fuel : nat) (address : Z) (data : ptr) (m : machine),
    address <> 0 ->
    frame (m_mem m) data 2 = [0x80; 0x89] ->
    let r := firmware (0x1234, 0x5678) fuel address data 2 6 m in
    fst r = Some 6 /\
    frame (m_mem (snd r)) data 6 = [Status.COMMAND_OK; 0x12; 0x34; 0x56; 0x78; 0x1C] /\
    crc8 [Status.COMMAND_OK; 0x12; 0x34; 0x56; 0x78; 0x1C] = 0.
Proof.
  intros fuel address data m Ha Hreq r.
  assert (H0 : m_mem m data = 0x80 /\ m_mem m (data + 1) = 0x89).
  { unfold frame in Hreq. cbn [seq map Z.of_nat] in Hreq.
    rewrite Z.add_0_r in Hreq. change (Z.pos (Pos.of_succ_nat 0)) with 1 in Hreq.
    inversion Hreq. split; reflexivity. }
  destruct H0 as [Hcmd Hcrc].
  assert (Hc : calcCrc (m_mem m) data 2 = 0).
  { rewrite calcCrc_frame. change (Z.to_nat 2) with 2%nat. now rewrite Hreq. }
  subst r. unfold firmware.
  rewrite (dispatch_command _ _ _ _ _ _ _
             (cmd_result_of Status.COMMAND_OK 4)
             (store (store (store (store (m_mem m) (data + 1 + 0) 0x12)
                                  (data + 1 + 1) 0x34)
                           (data + 1 + 2) 0x56)
                    (data + 1 + 3) 0x78)
             Ha); try lia; try assumption.
  2:{ rewrite Hcmd. reflexivity. }
  cbv zeta. cbn [cmd_result_of CmdResult.status CmdResult.len fst snd m_mem].
  change (Status.COMMAND_OK =? Status.NO_REPLY) with false. cbv iota.
  change (u8 (4 + 1)) with 5.
  cbn [fst snd m_mem].
  set (mem1 := store _ data Status.COMMAND_OK).
  assert (Hf : frame mem1 data 5 = [Status.COMMAND_OK; 0x12; 0x34; 0x56; 0x78]).
  { unfold frame. cbn [seq map Z.of_nat Pos.of_succ_nat Pos.succ]. subst mem1.
    unfold store.
    repeat match goal with
           | |- context [?a =? ?b] => destruct (Z.eqb_spec a b); try lia
           end.
    reflexivity. }
  assert (Hcrc5 : calcCrc mem1 data 5 = 0x1C).
  { rewrite calcCrc_frame. change (Z.to_nat 5) with 5%nat. now rewrite Hf. }
  rewrite Hcrc5. split; [reflexivity|]. split; [|reflexivity].
  change 6%nat with (S 5). rewrite frame_S.
  rewrite frame_store_outside by lia. rewrite Hf.
  change (Z.of_nat 5) with 5. now rewrite store_same.
Qed.

(** C10.  The numeric encodings on the bus: the status codes, the
    general-call directives, and the coincidence of [RESET_ADDRESS] with
    [INVALID_CRC]. *)
Theorem bus_encodings :
  Status.COMMAND_OK = 0x00 /\
  Status.COMMAND_FAILED = 0x01 /\
  Status.COMMAND_NOT_SUPPORTED = 0x02 /\
  Status.INVALID_TRANSFER = 0x03 /\
  Status.INVALID_CRC = 0x04 /\
  Status.INVALID_ARGUMENTS = 0x05 /\
  Status.NO_REPLY = 0xff /\
  GeneralCallCommands.RESET = 0x06 /\
  GeneralCallCommands.RESET_ADDRESS = 0x04 /\
  GeneralCallCommands.RESET_ADDRESS = Status.INVALID_CRC.
Proof. repeat split. Qed.

(** ** The theorems at concrete inputs *)

Lemma known_command_reply_witness :
  fst (firmware (0x1234, 0x5678) 0 8 16 2 6
                (mkMachine (mem_of_list 16 [0x80; 0x89]) [])) = Some (4 + 2).
Proof.
  refine (proj1 (known_command_reply (0x1234, 0x5678) 0 8 16 2 6
                   (mkMachine (mem_of_list 16 [0x80; 0x89]) []) 0 4
                   (snd (firmware_processCommand (0x1234, 0x5678) 0x80 17 0 4
                                                 (mem_of_list 16 [0x80; 0x89])))
                   _ _ _ _ _ _)).
  - discriminate.
  - lia.
  - lia.
  - reflexivity.
  - reflexivity.
  - discriminate.
Defined.

Lemma corrupted_frame_invalid_crc_witness :
  fst (TwoWireCallback (firmware_processCommand (0, 0)) 0 8 16 2 6
         (mkMachine (flip_bit (mem_of_list 16 [0x80; 0x89]) (16 + 1) 3) []))
  = Some 2.
Proof.
  refine (proj1 (corrupted_frame_invalid_crc (firmware_processCommand (0, 0)) 0 8 16 2 6
                   (mkMachine (mem_of_list 16 [0x80; 0x89]) []) 1 3
                   _ _ _ _ _ _ _)).
  - discriminate.
  - lia.
  - lia.
  - intros i Hi. assert (H : i = 0 \/ i = 1) by lia.
    destruct H as [-> | ->]; (vm_compute; split; [discriminate | reflexivity]).
  - reflexivity.
  - lia.
  - lia.
Defined.

Lemma short_frame_invalid_transfer_witness :
  frame (m_mem (snd (TwoWireCallback (firmware_processCommand (0, 0)) 0 8 16 1 2
                       (mkMachine (mem_of_list 16 [0x80]) [])))) 16 2
  = [Status.INVALID_TRANSFER; crc8 [Status.INVALID_TRANSFER]].
Proof.
  refine (proj1 (proj2 (short_frame_invalid_transfer (firmware_processCommand (0, 0))
                          0 8 16 1 2 (mkMachine (mem_of_list 16 [0x80]) []) _ _ _))).
  - discriminate.
  - lia.
  - lia.
Defined.

Lemma get_last_measurement_scenario_witness :
  fst (firmware (0x1234, 0x5678) 0 8 16 2 6
                (mkMachine (mem_of_list 16 [0x80; 0x89]) [])) = Some 6.
Proof.
  refine (proj1 (get_last_measurement_scenario 0 8 16
                   (mkMachine (mem_of_list 16 [0x80; 0x89]) []) _ _)).
  - discriminate.
  - reflexivity.
Defined.

Lemma dispatcher_within_capacity_witness :
  exists n,
    fst (TwoWireCallback (firmware_processCommand (0x1234, 0x5678)) 0 8 16 2 6
           (mkMachine (mem_of_list 16 [0x80; 0x89]) [])) = Some n /\
    0 <= n <= 6.
Proof.
  refine (proj1 (dispatcher_within_capacity (firmware_processCommand (0x1234, 0x5678))
                   0 8 16 2 6 (mkMachine (mem_of_list 16 [0x80; 0x89]) []) _ _ _)).
  - discriminate.
  - lia.
  - intros _ _ _. vm_compute. split; discriminate.
Defined.

Lemma no_room_no_reply_witness :
  fst (TwoWireCallback (firmware_processCommand (0, 0)) 0 8 16 2 1
         (mkMachine (mem_of_list 16 [0x80; 0x89]) [])) = Some 0.
Proof.
  refine (proj1 (no_room_no_reply (firmware_processCommand (0, 0)) 0 8 16 2 1
                   (mkMachine (mem_of_list 16 [0x80; 0x89]) []) _ _)).
  - discriminate.
  - lia.
Defined.

Lemma general_call_reset_never_returns_witness :
  TwoWireCallback (firmware_processCommand (0, 0)) 1000 0 16 1 6
    (mkMachine (mem_of_list 16 [0x06]) [])
  = (None, mkMachine (mem_of_list 16 [0x06]) [WdtEnable WDTO_15MS]).
Proof.
  refine (general_call_reset_never_returns (firmware_processCommand (0, 0)) 1000 0 16 1 6
            (mkMachine (mem_of_list 16 [0x06]) []) _ _ _).
  - reflexivity.
  - lia.
  - reflexivity.
Defined.

Lemma general_call_behaviour_witness :
  TwoWireCallback (firmware_processCommand (0, 0)) 0 0 16 1 6
    (mkMachine (mem_of_list 16 [0x04]) [])
  = (Some 0, mkMachine (mem_of_list 16 [0x04]) [ResetDeviceAddress]).
Proof.
  refine (proj1 (general_call_behaviour (firmware_processCommand (0, 0)) 0 0 16 1 6
                   (mkMachine (mem_of_list 16 [0x04]) []) _) _ _).
  - reflexivity.
  - lia.
  - reflexivity.
Defined.

(** ** More on the checksum engine *)

Lemma crc8_shift_is_byte x : is_byte (crc8_shift x).
Proof.
  unfold crc8_shift.
  destruct (negb (Z.land x 128 =? 0)); [|apply is_byte_u8].
  apply lxor_byte; [apply is_byte_u8 | unfold is_byte; lia].
Qed.

Lemma update_is_byte c d : is_byte (_crc8_ccitt_update c d).
Proof.
  unfold _crc8_ccitt_update. cbn [crc8_shifts].
  apply (crc8_shifts_byte 7), crc8_shift_is_byte.
Qed.

Lemma calcCrc_is_byte mem data n : is_byte (calcCrc mem data n).
Proof.
  destruct (Z_lt_le_dec 0 n) as [Hpos | Hle].
  - replace n with (n - 1 + 1) by lia.
    rewrite calcCrc_succ by lia. apply update_is_byte.
  - rewrite calcCrc_nonpos by assumption. unfold is_byte. lia.
Qed.

Lemma crc8_shift_xor a b :
  is_byte a -> is_byte b ->
  crc8_shift (Z.lxor a b) = Z.lxor (crc8_shift a) (crc8_shift b).
Proof.
  intros Ha Hb.
  assert (H : forallb (fun y => crc8_shift (Z.lxor a y)
                                =? Z.lxor (crc8_shift a) (crc8_shift y))
                      all_bytes = true).
  { revert a Ha. apply forall_bytes. vm_compute. reflexivity. }
  rewrite forallb_forall in H. apply Z.eqb_eq, H, in_all_bytes, Hb.
Qed.

Lemma crc8_shifts_xor n : forall a b,
  is_byte a -> is_byte b ->
  crc8_shifts n (Z.lxor a b) = Z.lxor (crc8_shifts n a) (crc8_shifts n b).
Proof.
  induction n as [|n IH]; intros a b Ha Hb; simpl; [reflexivity|].
  rewrite crc8_shift_xor by assumption.
  apply IH; apply crc8_shift_byte; assumption.
Qed.

Lemma update_xor c c' d d' :
  is_byte c -> is_byte c' -> is_byte d -> is_byte d' ->
  _crc8_ccitt_update (Z.lxor c c') (Z.lxor d d') =
  Z.lxor (_crc8_ccitt_update c d) (_crc8_ccitt_update c' d').
Proof.
  intros Hc Hc' Hd Hd'. unfold _crc8_ccitt_update.
  rewrite <- crc8_shifts_xor by (apply lxor_byte; assumption).
  f_equal.
  rewrite !Z.lxor_assoc. f_equal.
  rewrite <- !Z.lxor_assoc. f_equal. apply Z.lxor_comm.
Qed.

Lemma calcCrc_xor_nat mem1 mem2 data (n : nat) :
  (forall i, 0 <= i < Z.of_nat n -> is_byte (mem1 (data + i))) ->
  (forall i, 0 <= i < Z.of_nat n -> is_byte (mem2 (data + i))) ->
  calcCrc (xor_mem mem1 mem2) data (Z.of_nat n) =
  Z.lxor (calcCrc mem1 data (Z.of_nat n)) (calcCrc mem2 data (Z.of_nat n)).
Proof.
  induction n as [|n IH]; intros H1 H2; [reflexivity|].
  rewrite Nat2Z.inj_succ. unfold Z.succ.
  rewrite !calcCrc_succ by lia.
  rewrite IH by (intros i Hi; (apply H1 || apply H2); lia).
  unfold xor_mem at 1.
  apply update_xor; try apply calcCrc_is_byte; (apply H1 || apply H2); lia.
Qed.

(** X1.  The checksum always fits in a byte, so storing it in the buffer
    loses nothing, and two frames of bytes that differ in exactly one
    position never have the same checksum. *)
Theorem calcCrc_detects_single_byte_change :
  forall (mem mem' : memory) (data : ptr) (n j : Z),
    (forall i, 0 <= i < n -> is_byte (mem (data + i))) ->
    (forall i, 0 <= i < n -> is_byte (mem' (data + i))) ->
    0 <= j < n ->
    mem' (data + j) <> mem (data + j) ->
    (forall i, 0 <= i < n -> i <> j -> mem' (data + i) = mem (data + i)) ->
    calcCrc mem' data n <> calcCrc mem data n /\
    is_byte (calcCrc mem data n).
Proof.
  intros mem mem' data n j Hb Hb' Hj Hne Hsame.
  split; [|apply calcCrc_is_byte].
  intros Heq. apply Hne.
  rewrite !calcCrc_frame in Heq.
  set (nn := Z.to_nat n) in *. set (jn := Z.to_nat j).
  assert (Hjn : (jn < nn)%nat) by (subst jn nn; lia).
  rewrite (frame_split mem' _ jn nn Hjn) in Heq.
  rewrite (frame_split mem _ jn nn Hjn) in Heq.
  replace (Z.of_nat jn) with j in Heq by (subst jn; lia).
  rewrite (frame_ext mem' mem data jn) in Heq.
  2:{ intros i Hi. apply Hsame; subst jn; lia. }
  rewrite (map_ext_in (fun i => mem' (data + Z.of_nat i))
                      (fun i => mem (data + Z.of_nat i))) in Heq.
  2:{ intros i Hi. apply in_seq in Hi. apply Hsame; subst jn nn; lia. }
  apply crc8_single_byte_change in Heq; try assumption.
  - apply frame_bytes. intros i Hi. apply Hb. subst jn. lia.
  - apply tail_bytes. intros i Hi. apply Hb. subst nn. lia.
  - apply Hb'. lia.
  - apply Hb. lia.
Qed.

(** X2.  The checksum is linear over xor: the checksum of the bytewise xor
    of two frames of the same length is the xor of their checksums.  So
    the frames that pass the check are closed under xor. *)
Theorem calcCrc_xor :
  forall (mem1 mem2 : memory) (data : ptr) (n : Z),
    (forall i, 0 <= i < n -> is_byte (mem1 (data + i))) ->
    (forall i, 0 <= i < n -> is_byte (mem2 (data + i))) ->
    calcCrc (xor_mem mem1 mem2) data n =
    Z.lxor (calcCrc mem1 data n) (calcCrc mem2 data n).
Proof.
  intros mem1 mem2 data n H1 H2.
  destruct (Z_lt_le_dec n 0) as [Hneg | Hpos].
  - rewrite !calcCrc_nonpos by lia. reflexivity.
  - rewrite <- (Z2Nat.id n Hpos).
    apply calcCrc_xor_nat; intros i Hi; (apply H1 || apply H2); lia.
Qed.

(** ** More on the dispatcher *)

Section DispatcherExtras.

Variable processCommand : Z -> ptr -> Z -> Z -> memory -> cmd_result * memory.

Lemma dispatch_addressed_returns fuel address data len maxLen m :
  address <> 0 ->
  exists n, fst (TwoWireCallback processCommand fuel address data len maxLen m) = Some n.
Proof.
  intros Ha.
  destruct (Z_lt_le_dec maxLen 2) as [Hm | Hm].
  { rewrite dispatch_no_room by assumption. now exists 0. }
  destruct (Z_lt_le_dec len 2) as [Hl | Hl].
  { rewrite dispatch_short by assumption. now exists 2. }
  destruct (Z.eq_dec (calcCrc (m_mem m) data len) 0) as [Hc | Hc].
  2:{ rewrite dispatch_bad_crc by assumption. now exists 2. }
  destruct (processCommand (m_mem m data) (data + 1) (u8 (len - 2)) (u8 (maxLen - 2))
                           (m_mem m)) as [res mem'] eqn:Hres.
  rewrite (dispatch_command _ _ _ _ _ _ _ res mem') by assumption.
  cbv zeta. destruct (CmdResult.status res =? Status.NO_REPLY); eexists; reflexivity.
Qed.

(** X3.  The dispatcher fails to return in exactly one situation: a
    general call whose first byte is [RESET].  Every other call returns,
    whatever the fuel. *)
Theorem dispatcher_returns_unless_reset :
  forall (fuel : nat) (address : Z) (data : ptr) (len maxLen : Z) (m : machine),
    fst (TwoWireCallback processCommand fuel address data len maxLen m) = None <->
    address = 0 /\ 1 <= len /\ m_mem m data = GeneralCallCommands.RESET.
Proof.
  intros fuel address data len maxLen m. split.
  - intros Hnone. destruct (Z.eq_dec address 0) as [Ha | Ha].
    + split; [assumption|]. rewrite dispatch_general_call in Hnone by assumption.
      unfold handleGeneralCall in Hnone.
      destruct (Z.leb_spec 1 len); cbn [andb] in Hnone; [|discriminate Hnone].
      destruct (Z.eqb_spec (m_mem m data) GeneralCallCommands.RESET); [now split|].
      destruct (m_mem m data =? GeneralCallCommands.RESET_ADDRESS); discriminate Hnone.
    + destruct (dispatch_addressed_returns fuel address data len maxLen m Ha) as [n Hn].
      rewrite Hn in Hnone. discriminate Hnone.
  - intros [Ha [Hl Hd]]. rewrite dispatch_general_call by assumption.
    unfold handleGeneralCall. rewrite Hd.
    destruct (Z.leb_spec 1 len); [|lia].
    cbn [Z.eqb Pos.eqb andb GeneralCallCommands.RESET].
    unfold bind, emit. now rewrite while_true_spins.
Qed.

(** X4.  When the handler answers [NO_REPLY] the dispatcher returns 0 and
    stores nothing: the memory is what the handler left, and the only new
    events are the checksum of the request and the call of the handler. *)
Theorem no_reply_suppresses_the_response :
  forall (fuel : nat) (address : Z) (data : ptr) (len maxLen : Z) (m : machine)
         (res : cmd_result) (mem' : memory),
    address <> 0 -> 2 <= maxLen -> 2 <= len ->
    calcCrc (m_mem m) data len = 0 ->
    processCommand (m_mem m data) (data + 1) (u8 (len - 2)) (u8 (maxLen - 2)) (m_mem m)
      = (res, mem') ->
    CmdResult.status res = Status.NO_REPLY ->
    TwoWireCallback processCommand fuel address data len maxLen m =
    (Some 0,
     mkMachine mem'
               (m_trace m ++ [CalcCrc data len;
                              ProcessCommand (m_mem m data) (data + 1)
                                             (u8 (len - 2)) (u8 (maxLen - 2))])).
Proof.
  intros fuel address data len maxLen m res mem' Ha Hm Hl Hc Hres Hs.
  rewrite (dispatch_command _ _ _ _ _ _ _ res mem') by assumption.
  cbv zeta. rewrite Hs. reflexivity.
Qed.

Lemma dispatch_reply_checksum :
  forall (fuel : nat) (address : Z) (data : ptr) (len maxLen : Z) (m : machine) (n : Z),
    address <> 0 ->
    (2 <= maxLen -> 2 <= len -> calcCrc (m_mem m) data len = 0 ->
     0 <= CmdResult.len
            (fst (processCommand (m_mem m data) (data + 1)
                                 (u8 (len - 2)) (u8 (maxLen - 2)) (m_mem m)))
       <= 253) ->
    fst (TwoWireCallback processCommand fuel address data len maxLen m) = Some n ->
    n <> 0 ->
    2 <= n /\
    calcCrc (m_mem (snd (TwoWireCallback processCommand fuel address data len maxLen m)))
            data n = 0.
Proof.
  intros fuel address data len maxLen m n Ha Hdecl Hn Hnz.
  assert (Hstatus : forall s mem0,
             calcCrc (store (store mem0 data s) (data + 1) (crc8 [s])) data 2 = 0).
  { intros s mem0. rewrite calcCrc_frame. change (Z.to_nat 2) with 2%nat.
    unfold frame. cbn [seq map Z.of_nat]. rewrite Z.add_0_r.
    rewrite store_other by lia. rewrite store_same.
    change (Z.pos (Pos.of_succ_nat 0)) with 1. rewrite store_same.
    apply (crc8_append_self [s]). }
  destruct (Z_lt_le_dec maxLen 2) as [Hm | Hm].
  { rewrite dispatch_no_room in Hn by assumption. cbn in Hn. congruence. }
  destruct (Z_lt_le_dec len 2) as [Hl | Hl].
  { rewrite dispatch_short in * by assumption. cbn [fst snd m_mem] in *.
    inversion Hn; subst n. split; [lia | apply Hstatus]. }
  destruct (Z.eq_dec (calcCrc (m_mem m) data len) 0) as [Hc | Hc].
  2:{ rewrite dispatch_bad_crc in * by assumption. cbn [fst snd m_mem] in *.
      inversion Hn; subst n. split; [lia | apply Hstatus]. }
  specialize (Hdecl Hm Hl Hc).
  destruct (processCommand (m_mem m data) (data + 1) (u8 (len - 2)) (u8 (maxLen - 2))
                           (m_mem m)) as [[s p] mem'] eqn:Hres.
  cbn [fst CmdResult.len] in Hdecl.
  destruct (Z.eq_dec s Status.NO_REPLY) as [Hs | Hs].
  - rewrite (dispatch_command _ _ _ _ _ _ _ _ mem' Ha Hm Hl Hc Hres) in Hn.
    cbv zeta in Hn. cbn [CmdResult.status] in Hn. rewrite Hs in Hn.
    cbn in Hn. congruence.
  - destruct (dispatch_command_reply processCommand fuel address data len maxLen m
                s p mem' Ha Hm Hl Hc Hres Hs Hdecl) as [Hr [_ [_ Hz]]].
    rewrite Hr in Hn. inversion Hn; subst n. split; [lia | exact Hz].
Qed.

(** X5.  Whenever an addressed call returns a length other than 0, that
    length is at least 2 and the reply checksums to zero over it, provided
    the handler, when it is invoked, declares a payload length between 0
    and 253. *)
Theorem every_reply_checksums_to_zero :
  forall (fuel : nat) (address : Z) (data : ptr) (len maxLen : Z) (m : machine) (n : Z),
    address <> 0 ->
    (2 <= maxLen -> 2 <= len -> calcCrc (m_mem m) data len = 0 ->
     0 <= CmdResult.len
            (fst (processCommand (m_mem m data) (data + 1)
                                 (u8 (len - 2)) (u8 (maxLen - 2)) (m_mem m)))
       <= 253) ->
    fst (TwoWireCallback processCommand fuel address data len maxLen m) = Some n ->
    n <> 0 ->
    2 <= n /\
    calcCrc (m_mem (snd (TwoWireCallback processCommand fuel address data len maxLen m)))
            data n = 0.
Proof. exact dispatch_reply_checksum. Qed.

(** X6.  The dispatcher trusts the declared length: when the handler
    declares 254 or 255 bytes, [len] wraps in its [uint8_t] and the call
    returns 0 or 1 instead of a reply length; for 255 the status byte is
    overwritten with the checksum of no bytes, 0. *)
Theorem declared_length_wraps :
  forall (fuel : nat) (address : Z) (data : ptr) (len maxLen : Z) (m : machine)
         (s p : Z) (mem' : memory),
    address <> 0 -> 2 <= maxLen -> 2 <= len ->
    calcCrc (m_mem m) data len = 0 ->
    processCommand (m_mem m data) (data + 1) (u8 (len - 2)) (u8 (maxLen - 2)) (m_mem m)
      = (CmdResult.mk s p, mem') ->
    s <> Status.NO_REPLY ->
    254 <= p <= 255 ->
    let r := TwoWireCallback processCommand fuel address data len maxLen m in
    fst r = Some (p - 254) /\
    (p = 255 -> m_mem (snd r) data = 0).
Proof.
  intros fuel address data len maxLen m s p mem' Ha Hm Hl Hc Hres Hs Hp r. subst r.
  rewrite (dispatch_command _ _ _ _ _ _ _ _ mem' Ha Hm Hl Hc Hres).
  cbv zeta. cbn [CmdResult.status CmdResult.len].
  destruct (Z.eqb_spec s Status.NO_REPLY); [contradiction|].
  cbn [fst snd m_mem].
  assert (Hcase : p = 254 \/ p = 255) by lia.
  destruct Hcase as [-> | ->].
  - split; [reflexivity | lia].
  - split; [reflexivity|]. intros _.
    change (u8 (255 + 1)) with 0. rewrite Z.add_0_r, store_same.
    reflexivity.
Qed.

(** X7.  Any addressed frame of at least two bytes whose checksum is not
    zero, however it was damaged, is answered with exactly
    [[INVALID_CRC; 0x1C]] and length 2; the other cells of the memory keep
    their contents and the handler is not called. *)
Theorem bad_checksum_reply :
  forall (fuel : nat) (address : Z) (data : ptr) (len maxLen : Z) (m : machine),
    address <> 0 -> 2 <= maxLen -> 2 <= len ->
    calcCrc (m_mem m) data len <> 0 ->
    let r := TwoWireCallback processCommand fuel address data len maxLen m in
    fst r = Some 2 /\
    frame (m_mem (snd r)) data 2 = [Status.INVALID_CRC; 0x1C] /\
    (forall q, q <> data -> q <> data + 1 -> m_mem (snd r) q = m_mem m q) /\
    handler_calls (m_trace (snd r)) = handler_calls (m_trace m).
Proof.
  intros fuel address data len maxLen m Ha Hm Hl Hc r. subst r.
  rewrite dispatch_bad_crc by assumption. cbn [fst snd m_mem m_trace].
  split; [reflexivity|]. split; [|split].
  - unfold frame. cbn [seq map Z.of_nat]. rewrite Z.add_0_r.
    rewrite store_other by lia. rewrite store_same.
    change (Z.pos (Pos.of_succ_nat 0)) with 1. now rewrite store_same.
  - intros q H0 H1. now rewrite !store_other by assumption.
  - unfold handler_calls. rewrite filter_app. cbn. now rewrite app_nil_r.
Qed.

(** X8.  The handler is called at most once per call of the dispatcher,
    and exactly when the call is addressed, has room for a reply, and
    carries a frame of at least two bytes that checksums to zero; it is
    then given the first byte as command, the buffer from the second byte
    on, and the lengths less two. *)
Theorem handler_called_iff_well_formed :
  forall (fuel : nat) (address : Z) (data : ptr) (len maxLen : Z) (m : machine),
    handler_calls
      (m_trace (snd (TwoWireCallback processCommand fuel address data len maxLen m))) =
    handler_calls (m_trace m) ++
    (if negb (address =? 0) && (2 <=? maxLen) && (2 <=? len)
        && (calcCrc (m_mem m) data len =? 0)
     then [ProcessCommand (m_mem m data) (data + 1) (u8 (len - 2)) (u8 (maxLen - 2))]
     else []).
Proof.
  intros fuel address data len maxLen m. unfold handler_calls.
  destruct (Z.eqb_spec address 0) as [Ha | Ha]; cbn [negb andb].
  { rewrite dispatch_general_call by assumption.
    destruct (handleGeneralCall_cases fuel data len maxLen m) as [H | [H | H]];
      rewrite H; cbn [snd m_trace]; rewrite ?filter_app; cbn;
      now rewrite ?app_nil_r. }
  destruct (Z.leb_spec 2 maxLen) as [Hm | Hm]; cbn [andb].
  2:{ rewrite dispatch_no_room by (assumption || lia). cbn [snd].
      now rewrite app_nil_r. }
  destruct (Z.leb_spec 2 len) as [Hl | Hl]; cbn [andb].
  2:{ rewrite dispatch_short by (assumption || lia). cbn [snd m_trace].
      rewrite filter_app. reflexivity. }
  destruct (Z.eqb_spec (calcCrc (m_mem m) data len) 0) as [Hc | Hc].
  2:{ rewrite dispatch_bad_crc by assumption. cbn [snd m_trace].
      rewrite filter_app. reflexivity. }
  destruct (processCommand (m_mem m data) (data + 1) (u8 (len - 2)) (u8 (maxLen - 2))
                           (m_mem m)) as [res mem'] eqn:Hres.
  rewrite (dispatch_command _ _ _ _ _ _ _ res mem') by assumption.
  cbv zeta. destruct (CmdResult.status res =? Status.NO_REPLY);
    cbn [snd m_trace]; rewrite filter_app; reflexivity.
Qed.

End DispatcherExtras.

(** ** More on the command table *)

(** The reply to a handler result without payload. *)
Lemma dispatch_status_only processCommand fuel address data len maxLen m s mem' :
  address <> 0 -> 2 <= maxLen -> 2 <= len ->
  calcCrc (m_mem m) data len = 0 ->
  processCommand (m_mem m data) (data + 1) (u8 (len - 2)) (u8 (maxLen - 2)) (m_mem m)
    = (cmd_result_status s, mem') ->
  s <> Status.NO_REPLY ->
  let r := TwoWireCallback processCommand fuel address data len maxLen m in
  fst r = Some 2 /\
  m_mem (snd r) = store (store mem' data s) (data + 1) (crc8 [s]).
Proof.
  intros Ha Hm Hl Hc Hres Hs r. subst r.
  rewrite (dispatch_command _ _ _ _ _ _ _ _ mem' Ha Hm Hl Hc Hres).
  cbv zeta. cbn [cmd_result_status cmd_result_of CmdResult.status CmdResult.len].
  destruct (Z.eqb_spec s Status.NO_REPLY); [contradiction|].
  change (u8 (0 + 1)) with 1. cbn [fst snd m_mem].
  split; [reflexivity|].
  change 1 with (0 + 1) at 2. rewrite calcCrc_succ by lia.
  rewrite Z.add_0_r, store_same. reflexivity.
Qed.

Lemma frame_status_reply mem data s :
  frame (store (store mem data s) (data + 1) (crc8 [s])) data 2 = [s; crc8 [s]].
Proof.
  unfold frame. cbn [seq map Z.of_nat]. rewrite Z.add_0_r.
  rewrite store_other by lia. rewrite store_same.
  change (Z.pos (Pos.of_succ_nat 0)) with 1. now rewrite store_same.
Qed.

(** The three outcomes of the command table. *)
Lemma firmware_processCommand_cases measurement cmd data len maxLen mem :
  (cmd <> Commands.GET_LAST_MEASUREMENT /\
   firmware_processCommand measurement cmd data len maxLen mem
   = (cmd_result_status Status.COMMAND_NOT_SUPPORTED, mem)) \/
  (cmd = Commands.GET_LAST_MEASUREMENT /\ (len <> 0 \/ maxLen < 4) /\
   firmware_processCommand measurement cmd data len maxLen mem
   = (cmd_result_status Status.INVALID_ARGUMENTS, mem)) \/
  (cmd = Commands.GET_LAST_MEASUREMENT /\ len = 0 /\ 4 <= maxLen /\
   firmware_processCommand measurement cmd data len maxLen mem
   = (cmd_result_of Status.COMMAND_OK 4,
      store (store (store (store mem (data + 0) (u8 (Z.shiftr (fst measurement) 8)))
                          (data + 1) (u8 (fst measurement)))
                   (data + 2) (u8 (Z.shiftr (snd measurement) 8)))
            (data + 3) (u8 (snd measurement)))).
Proof.
  unfold firmware_processCommand, Main.processCommand.
  destruct (Z.eqb_spec cmd Commands.GET_LAST_MEASUREMENT) as [Hcmd | Hcmd];
    [|left; now split].
  right.
  destruct (Z.eqb_spec len 0) as [Hl | Hl]; cbn [negb orb].
  - destruct (Z.ltb_spec maxLen 4) as [Hm | Hm].
    + left. repeat split; auto.
    + right. repeat split; auto.
  - left. repeat split; auto.
Qed.

(** X9.  A well-formed request whose command byte is not
    [GET_LAST_MEASUREMENT] is answered with exactly
    [[COMMAND_NOT_SUPPORTED; 0x0E]] and length 2; nothing else in the
    memory changes. *)
Theorem unknown_command_not_supported :
  forall (measurement : Z * Z) (fuel : nat) (address : Z) (data : ptr)
         (len maxLen : Z) (m : machine),
    address <> 0 -> 2 <= maxLen -> 2 <= len ->
    calcCrc (m_mem m) data len = 0 ->
    m_mem m data <> Commands.GET_LAST_MEASUREMENT ->
    let r := firmware measurement fuel address data len maxLen m in
    fst r = Some 2 /\
    frame (m_mem (snd r)) data 2 = [Status.COMMAND_NOT_SUPPORTED; 0x0E] /\
    (forall q, q <> data -> q <> data + 1 -> m_mem (snd r) q = m_mem m q).
Proof.
  intros measurement fuel address data len maxLen m Ha Hm Hl Hc Hcmd r. subst r.
  destruct (firmware_processCommand_cases measurement (m_mem m data) (data + 1)
              (u8 (len - 2)) (u8 (maxLen - 2)) (m_mem m))
    as [[_ Hres] | [[Heq _] | [Heq _]]]; try contradiction.
  destruct (dispatch_status_only _ fuel address data len maxLen m _ _
              Ha Hm Hl Hc Hres) as [Hr Hmem]; [discriminate|].
  unfold firmware. rewrite Hr, Hmem.
  split; [reflexivity|]. split; [apply frame_status_reply|].
  intros q H0 H1. now rewrite !store_other by assumption.
Qed.

(** X10.  A well-formed [GET_LAST_MEASUREMENT] request that carries a
    payload ([len] other than 2) or leaves less than six bytes for the
    reply is answered with exactly [[INVALID_ARGUMENTS; 0x1B]] and length
    2, and no measurement byte is written. *)
Theorem get_last_measurement_invalid_arguments :
  forall (measurement : Z * Z) (fuel : nat) (address : Z) (data : ptr)
         (len maxLen : Z) (m : machine),
    address <> 0 -> 2 <= maxLen <= 255 -> 2 <= len <= 255 ->
    calcCrc (m_mem m) data len = 0 ->
    m_mem m data = Commands.GET_LAST_MEASUREMENT ->
    len <> 2 \/ maxLen < 6 ->
    let r := firmware measurement fuel address data len maxLen m in
    fst r = Some 2 /\
    frame (m_mem (snd r)) data 2 = [Status.INVALID_ARGUMENTS; 0x1B] /\
    (forall q, q <> data -> q <> data + 1 -> m_mem (snd r) q = m_mem m q).
Proof.
  intros measurement fuel address data len maxLen m Ha Hm Hl Hc Hcmd Hbad r. subst r.
  assert (Hlen : u8 (len - 2) = len - 2) by (apply Z.mod_small; lia).
  assert (Hmax : u8 (maxLen - 2) = maxLen - 2) by (apply Z.mod_small; lia).
  destruct (firmware_processCommand_cases measurement (m_mem m data) (data + 1)
              (u8 (len - 2)) (u8 (maxLen - 2)) (m_mem m))
    as [[Hne _] | [[_ [_ Hres]] | [_ [H0 [H4 _]]]]]; [contradiction | | lia].
  destruct (dispatch_status_only _ fuel address data len maxLen m _ _
              Ha (proj1 Hm) (proj1 Hl) Hc Hres) as [Hr Hmem]; [discriminate|].
  unfold firmware. rewrite Hr, Hmem.
  split; [reflexivity|]. split; [apply frame_status_reply|].
  intros q Hq0 Hq1. now rewrite !store_other by assumption.
Qed.

Ltac store_cases :=
  unfold store;
  repeat match goal with
         | |- context [?a =? ?b] => destruct (Z.eqb_spec a b); try lia
         end.

(** The machine after a [GET_LAST_MEASUREMENT] request that is served. *)
Lemma firmware_measurement_reply measurement fuel address data maxLen m :
  address <> 0 -> 6 <= maxLen <= 255 ->
  calcCrc (m_mem m) data 2 = 0 ->
  m_mem m data = Commands.GET_LAST_MEASUREMENT ->
  let mem4 :=
    store (store (store (store (m_mem m) (data + 1 + 0) (u8 (Z.shiftr (fst measurement) 8)))
                        (data + 1 + 1) (u8 (fst measurement)))
                 (data + 1 + 2) (u8 (Z.shiftr (snd measurement) 8)))
          (data + 1 + 3) (u8 (snd measurement)) in
  let mem5 := store mem4 data Status.COMMAND_OK in
  let r := firmware measurement fuel address data 2 maxLen m in
  fst r = Some 6 /\
  m_mem (snd r) = store mem5 (data + 5) (calcCrc mem5 data 5).
Proof.
  intros Ha Hm Hc Hcmd mem4 mem5 r. subst r.
  assert (Hmax : u8 (maxLen - 2) = maxLen - 2) by (apply Z.mod_small; lia).
  destruct (firmware_processCommand_cases measurement (m_mem m data) (data + 1)
              (u8 (2 - 2)) (u8 (maxLen - 2)) (m_mem m))
    as [[Hne _] | [[_ [Hbad _]] | [_ [_ [_ Hres]]]]].
  - contradiction.
  - change (u8 (2 - 2)) with 0 in Hbad. lia.
  - unfold firmware.
    assert (H2m : 2 <= maxLen) by lia. assert (H2l : 2 <= 2) by lia.
    rewrite (dispatch_command _ _ _ _ _ _ _ _ _ Ha H2m H2l Hc Hres).
    cbv zeta. cbn [cmd_result_of CmdResult.status CmdResult.len].
    change (Status.COMMAND_OK =? Status.NO_REPLY) with false. cbv iota.
    change (u8 (4 + 1)) with 5. cbn [fst snd m_mem].
    split; reflexivity.
Qed.

Lemma big_endian_16 a :
  0 <= a < 65536 -> 256 * u8 (Z.shiftr a 8) + u8 a = a.
Proof.
  intros Ha. unfold u8. rewrite Z.shiftr_div_pow2 by lia.
  change (2 ^ 8) with 256.
  rewrite (Z.mod_small (a / 256)) by (split; [apply Z.div_pos | apply Z.div_lt_upper_bound]; lia).
  pose proof (Z.div_mod a 256). lia.
Qed.

(** X11.  A served [GET_LAST_MEASUREMENT] reply carries the two stored
    16-bit values big-endian: decoding bytes 1-2 and 3-4 of the reply gives
    the stored pair back; the reply is six bytes, begins with
    [COMMAND_OK] and checksums to zero. *)
Theorem get_last_measurement_round_trip :
  forall (a b : Z) (fuel : nat) (address : Z) (data : ptr) (maxLen : Z) (m : machine),
    address <> 0 -> 6 <= maxLen <= 255 ->
    calcCrc (m_mem m) data 2 = 0 ->
    m_mem m data = Commands.GET_LAST_MEASUREMENT ->
    0 <= a < 65536 -> 0 <= b < 65536 ->
    let r := firmware (a, b) fuel address data 2 maxLen m in
    fst r = Some 6 /\
    m_mem (snd r) data = Status.COMMAND_OK /\
    decode16 (m_mem (snd r)) (data + 1) = a /\
    decode16 (m_mem (snd r)) (data + 3) = b /\
    calcCrc (m_mem (snd r)) data 6 = 0.
Proof.
  intros a b fuel address data maxLen m Ha Hm Hc Hcmd Hra Hrb r. subst r.
  destruct (firmware_measurement_reply (a, b) fuel address data maxLen m Ha Hm Hc Hcmd)
    as [Hr Hmem].
  cbv zeta in Hmem. cbn [fst snd] in Hmem.
  rewrite Hr, Hmem. clear Hr Hmem.
  split; [reflexivity|]. split; [|split; [|split]].
  - store_cases; reflexivity.
  - unfold decode16.
    match goal with
    | |- 256 * ?x + ?y = _ =>
        assert (E1 : x = u8 (Z.shiftr a 8)) by (store_cases; reflexivity);
        assert (E2 : y = u8 a) by (store_cases; reflexivity)
    end.
    rewrite E1, E2. apply big_endian_16, Hra.
  - unfold decode16.
    match goal with
    | |- 256 * ?x + ?y = _ =>
        assert (E1 : x = u8 (Z.shiftr b 8)) by (store_cases; reflexivity);
        assert (E2 : y = u8 b) by (store_cases; reflexivity)
    end.
    rewrite E1, E2. apply big_endian_16, Hrb.
  - change 6 with (5 + 1). apply calcCrc_store_crc. lia.
Qed.

(** X12.  The firmware answers every addressed call that has room for a
    reply: it returns 2 or 6, never 0, and the bytes it returns checksum
    to zero. *)
Theorem firmware_always_replies :
  forall (measurement : Z * Z) (fuel : nat) (address : Z) (data : ptr)
         (len maxLen : Z) (m : machine),
    address <> 0 -> 2 <= maxLen ->
    let r := firmware measurement fuel address data len maxLen m in
    (fst r = Some 2 \/ fst r = Some 6) /\
    (forall n, fst r = Some n -> calcCrc (m_mem (snd r)) data n = 0).
Proof.
  intros measurement fuel address data len maxLen m Ha Hm r. subst r.
  unfold firmware.
  assert (Hlen : fst (TwoWireCallback (firmware_processCommand measurement)
                                      fuel address data len maxLen m) = Some 2 \/
                 fst (TwoWireCallback (firmware_processCommand measurement)
                                      fuel address data len maxLen m) = Some 6).
  { destruct (Z_lt_le_dec len 2) as [Hl | Hl].
    { rewrite dispatch_short by assumption. now left. }
    destruct (Z.eq_dec (calcCrc (m_mem m) data len) 0) as [Hc | Hc].
    2:{ rewrite dispatch_bad_crc by assumption. now left. }
    destruct (firmware_processCommand_cases measurement (m_mem m data) (data + 1)
                (u8 (len - 2)) (u8 (maxLen - 2)) (m_mem m))
      as [[_ Hres] | [[_ [_ Hres]] | [_ [_ [_ Hres]]]]].
    - left. eapply dispatch_status_only; try eassumption. discriminate.
    - left. eapply dispatch_status_only; try eassumption. discriminate.
    - right.
      apply (dispatch_command_reply _ fuel address data len maxLen m _ 4 _
               Ha Hm Hl Hc Hres); [discriminate | lia]. }
  split; [exact Hlen|].
  intros n Hn.
  apply dispatch_reply_checksum; try assumption.
  - intros _ _ _.
    pose proof (firmware_processCommand_len measurement (m_mem m data) (data + 1)
                  (u8 (len - 2)) (u8 (maxLen - 2)) (m_mem m)).
    lia.
  - destruct Hlen as [H | H]; rewrite H in Hn; inversion Hn; lia.
Qed.

(** X13.  With its own command table the firmware keeps within the
    buffer whatever the request: the returned length is at most [maxLen]
    and no cell outside [data .. data + maxLen - 1] changes, the handler's
    stores included. *)
Theorem firmware_within_buffer :
  forall (measurement : Z * Z) (fuel : nat) (address : Z) (data : ptr)
         (len maxLen : Z) (m : machine),
    address <> 0 -> 0 <= maxLen <= 255 -> 0 <= len <= 255 ->
    let r := firmware measurement fuel address data len maxLen m in
    (exists n, fst r = Some n /\ 0 <= n <= maxLen) /\
    (forall q, q < data \/ data + maxLen <= q -> m_mem (snd r) q = m_mem m q).
Proof.
  intros measurement fuel address data len maxLen m Ha Hm Hl r. subst r.
  unfold firmware.
  destruct (Z_lt_le_dec maxLen 2) as [Hm2 | Hm2].
  { rewrite dispatch_no_room by assumption. cbn [fst snd]. split.
    - exists 0. split; [reflexivity | lia].
    - reflexivity. }
  destruct (Z_lt_le_dec len 2) as [Hl2 | Hl2].
  { rewrite dispatch_short by assumption. cbn [fst snd m_mem]. split.
    - exists 2. split; [reflexivity | lia].
    - intros q Hq. store_cases; reflexivity. }
  destruct (Z.eq_dec (calcCrc (m_mem m) data len) 0) as [Hc | Hc].
  2:{ rewrite dispatch_bad_crc by assumption. cbn [fst snd m_mem]. split.
      - exists 2. split; [reflexivity | lia].
      - intros q Hq. store_cases; reflexivity. }
  assert (Hlen : u8 (len - 2) = len - 2) by (apply Z.mod_small; lia).
  assert (Hmax : u8 (maxLen - 2) = maxLen - 2) by (apply Z.mod_small; lia).
  destruct (firmware_processCommand_cases measurement (m_mem m data) (data + 1)
              (u8 (len - 2)) (u8 (maxLen - 2)) (m_mem m))
    as [[_ Hres] | [[_ [_ Hres]] | [Hcmd [H0 [H4 _]]]]].
  - destruct (dispatch_status_only _ fuel address data len maxLen m _ _
                Ha Hm2 Hl2 Hc Hres) as [Hr Hmem]; [discriminate|].
    rewrite Hr, Hmem. split.
    + exists 2. split; [reflexivity | lia].
    + intros q Hq. store_cases; reflexivity.
  - destruct (dispatch_status_only _ fuel address data len maxLen m _ _
                Ha Hm2 Hl2 Hc Hres) as [Hr Hmem]; [discriminate|].
    rewrite Hr, Hmem. split.
    + exists 2. split; [reflexivity | lia].
    + intros q Hq. store_cases; reflexivity.
  - assert (len = 2) by lia. subst len.
    assert (Hm6 : 6 <= maxLen <= 255) by lia.
    destruct (firmware_measurement_reply measurement fuel address data maxLen m
                Ha Hm6 Hc Hcmd) as [Hr Hmem].
    cbv zeta in Hmem. unfold firmware in Hr, Hmem.
    rewrite Hr, Hmem. split.
    + exists 6. split; [reflexivity | lia].
    + intros q Hq. store_cases; reflexivity.
Qed.

(** ** The hopper measurement *)

Lemma u16_range z : 0 <= u16 z < 65536.
Proof. unfold u16. apply Z.mod_pos_bound. lia. Qed.

Lemma hopper_test on off threshold :
  0 <= on < 65536 -> 0 <= off < 65536 -> 0 <= threshold ->
  (on <? off) && (threshold <? u16 (off - on)) = (threshold <? off - on).
Proof.
  intros Hon Hoff Ht. destruct (Z.ltb_spec on off) as [Hlt | Hge]; cbn [andb].
  - unfold u16. rewrite Z.mod_small by lia. reflexivity.
  - symmetry. apply Z.ltb_ge. lia.
Qed.

(** X14.  [measure_hopper] stores the two readings, as 16-bit values, in
    [measurement], leaves the LED off, and drives [H_Out] to
    [HOPPER_EMPTY] exactly when the reading with the LED off exceeds the
    one with the LED on by more than 20, to [HOPPER_FULL] otherwise: the
    16-bit wrap of [off - on] never decides. *)
Theorem measure_hopper_decision :
  forall (reading_on reading_off : Z) (b : board),
    let b' := measure_hopper reading_on reading_off b in
    measurement b' = (u16 reading_on, u16 reading_off) /\
    level b' Hardware.H_Led = Hardware.LED_OFF /\
    level b' Hardware.H_Out =
      (if 20 <? u16 reading_off - u16 reading_on
       then Hardware.HOPPER_EMPTY else Hardware.HOPPER_FULL).
Proof.
  intros reading_on reading_off b b'. subst b'. unfold measure_hopper.
  rewrite hopper_test by (try apply u16_range; unfold hopper_threshold; lia).
  unfold hopper_threshold.
  destruct (20 <? u16 reading_off - u16 reading_on); repeat split.
Qed.

(** X15.  A measurement followed by a served [GET_LAST_MEASUREMENT]
    request: the reply decodes to the two readings just taken (as 16-bit
    values). *)
Theorem measure_then_query :
  forall (reading_on reading_off : Z) (b : board)
         (fuel : nat) (address : Z) (data : ptr) (maxLen : Z) (m : machine),
    address <> 0 -> 6 <= maxLen <= 255 ->
    calcCrc (m_mem m) data 2 = 0 ->
    m_mem m data = Commands.GET_LAST_MEASUREMENT ->
    let b' := measure_hopper reading_on reading_off b in
    let r := firmware (measurement b') fuel address data 2 maxLen m in
    fst r = Some 6 /\
    decode16 (m_mem (snd r)) (data + 1) = u16 reading_on /\
    decode16 (m_mem (snd r)) (data + 3) = u16 reading_off.
Proof.
  intros reading_on reading_off b fuel address data maxLen m Ha Hm Hc Hcmd b' r.
  assert (Hmeas : measurement b' = (u16 reading_on, u16 reading_off)).
  { subst b'. unfold measure_hopper.
    destruct ((u16 reading_on <? u16 reading_off)
              && (hopper_threshold <? u16 (u16 reading_off - u16 reading_on)));
      reflexivity. }
  subst r. rewrite Hmeas.
  destruct (firmware_measurement_reply (u16 reading_on, u16 reading_off)
              fuel address data maxLen m Ha Hm Hc Hcmd) as [Hr Hmem].
  cbv zeta in Hmem. cbn [fst snd] in Hmem.
  rewrite Hr, Hmem. clear Hr Hmem.
  split; [reflexivity|]. split.
  - unfold decode16.
    match goal with
    | |- 256 * ?x + ?y = _ =>
        assert (E1 : x = u8 (Z.shiftr (u16 reading_on) 8)) by (store_cases; reflexivity);
        assert (E2 : y = u8 (u16 reading_on)) by (store_cases; reflexivity)
    end.
    rewrite E1, E2. apply big_endian_16, u16_range.
  - unfold decode16.
    match goal with
    | |- 256 * ?x + ?y = _ =>
        assert (E1 : x = u8 (Z.shiftr (u16 reading_off) 8)) by (store_cases; reflexivity);
        assert (E2 : y = u8 (u16 reading_off)) by (store_cases; reflexivity)
    end.
    rewrite E1, E2. apply big_endian_16, u16_range.
Qed.

(** X16.  The sketch's [measure_hopper] never touches [measurement] and
    uses the threshold 5: [H_Out] goes to [HOPPER_EMPTY] exactly when the
    second reading exceeds the first by more than 5.  So whenever the
    [measure_hopper] of [Main.cpp] reports an empty hopper, the sketch's
    does too for the same readings. *)
Theorem sketch_measure_hopper_decision :
  forall (reading_on reading_off : Z) (b : board),
    let b' := Sketch.measure_hopper reading_on reading_off b in
    measurement b' = measurement b /\
    level b' Hardware.H_Out =
      (if 5 <? u16 reading_off - u16 reading_on
       then Hardware.HOPPER_EMPTY else Hardware.HOPPER_FULL) /\
    (level (measure_hopper reading_on reading_off b) Hardware.H_Out
       = Hardware.HOPPER_EMPTY ->
     level b' Hardware.H_Out = Hardware.HOPPER_EMPTY).
Proof.
  intros reading_on reading_off b b'. subst b'.
  unfold Sketch.measure_hopper, measure_hopper.
  rewrite !hopper_test
    by (try apply u16_range; unfold hopper_threshold, Sketch.hopper_threshold; lia).
  unfold hopper_threshold, Sketch.hopper_threshold.
  destruct (Z.ltb_spec 5 (u16 reading_off - u16 reading_on));
    destruct (Z.ltb_spec 20 (u16 reading_off - u16 reading_on));
    try lia; repeat split; try reflexivity; cbn; discriminate.
Qed.

(** ** The rotary encoder *)

Lemma s8_range z : -128 <= s8 z <= 127.
Proof.
  unfold s8. pose proof (Z.mod_pos_bound z 256).
  destruct (Z.ltb_spec (z mod 256) 128); lia.
Qed.

Lemma s8_congr y v : -128 <= v <= 127 -> (y - v) mod 256 = 0 -> s8 y = v.
Proof.
  intros Hv Hmod. unfold s8.
  assert (Hy : y mod 256 = v mod 256).
  { replace y with (v + (y - v)) by lia.
    rewrite Z.add_mod, Hmod, Z.add_0_r, Z.mod_mod by lia. reflexivity. }
  rewrite Hy.
  destruct (Z_lt_le_dec v 0) as [Hneg | Hpos].
  - assert (Hm : v mod 256 = v + 256).
    { symmetry. apply (Z.mod_unique v 256 (-1)); lia. }
    rewrite Hm. destruct (Z.ltb_spec (v + 256) 128); lia.
  - rewrite Z.mod_small by lia. destruct (Z.ltb_spec v 128); lia.
Qed.

Lemma s8_diff_mod z : (z - s8 z) mod 256 = 0.
Proof.
  unfold s8. destruct (Z.ltb_spec (z mod 256) 128).
  - rewrite Zminus_mod_idemp_r, Z.sub_diag. reflexivity.
  - replace (z - (z mod 256 - 256)) with (z - z mod 256 + 1 * 256) by lia.
    rewrite Z.mod_add by lia.
    rewrite Zminus_mod_idemp_r, Z.sub_diag. reflexivity.
Qed.

(** Moving [last] by [k] moves the signed difference by [-k], as long as
    it stays in the range of [int8_t]. *)
Lemma s8_step value last k :
  -128 <= s8 (value - last) - k <= 127 ->
  s8 (value - u8 (last + k)) = s8 (value - last) - k.
Proof.
  intros H. apply s8_congr; [assumption|].
  replace (value - u8 (last + k) - (s8 (value - last) - k))
    with ((value - last - s8 (value - last)) + ((last + k) - u8 (last + k))) by lia.
  rewrite Z.add_mod by lia. rewrite s8_diff_mod.
  unfold u8. rewrite Zminus_mod_idemp_r, Z.sub_diag. reflexivity.
Qed.

Lemma u8_step_mod4 last k : k mod 4 = 0 -> (u8 (last + k) - last) mod 4 = 0.
Proof.
  intros Hk. unfold u8.
  pose proof (Z.div_mod (last + k) 256).
  pose proof (Z.div_mod k 4).
  replace ((last + k) mod 256 - last)
    with ((k / 4 - 64 * ((last + k) / 256)) * 4) by lia.
  apply Z.mod_mul. lia.
Qed.

Lemma process_loop_terminates : forall (fuel : nat) (value last up : Z),
  Z.abs (s8 (value - last)) < 4 * Z.of_nat fuel ->
  exists last' up',
    ButtonEncoder.process_loop fuel value last up = Some (last', up') /\
    -3 <= s8 (value - last') <= 3 /\
    (last' - last) mod 4 = 0.
Proof.
  induction fuel as [|fuel IH]; intros value last up Hfuel; [lia|].
  cbn [ButtonEncoder.process_loop]. cbv zeta.
  pose proof (s8_range (value - last)) as Hr.
  destruct (Z.ltb_spec (s8 (value - last)) (-3)) as [Hlow | Hlow].
  - assert (Hs : s8 (value - u8 (last + -4)) = s8 (value - last) - -4)
      by (apply s8_step; lia).
    change (last - 4) with (last + -4).
    destruct (IH value (u8 (last + -4)) (s8 (up - 1))) as [l' [u' [Hl [Hd Hm]]]];
      [rewrite Hs; lia|].
    exists l', u'. split; [exact Hl|]. split; [exact Hd|].
    replace (l' - last) with ((l' - u8 (last + -4)) + (u8 (last + -4) - last)) by lia.
    rewrite Z.add_mod, Hm, u8_step_mod4 by (lia || reflexivity). reflexivity.
  - destruct (Z.ltb_spec 3 (s8 (value - last))) as [Hhigh | Hhigh].
    + assert (Hs : s8 (value - u8 (last + 4)) = s8 (value - last) - 4)
        by (apply s8_step; lia).
      destruct (IH value (u8 (last + 4)) (s8 (up + 1))) as [l' [u' [Hl [Hd Hm]]]];
        [rewrite Hs; lia|].
      exists l', u'. split; [exact Hl|]. split; [exact Hd|].
      replace (l' - last) with ((l' - u8 (last + 4)) + (u8 (last + 4) - last)) by lia.
      rewrite Z.add_mod, Hm, u8_step_mod4 by (lia || reflexivity). reflexivity.
    + exists last, up. split; [reflexivity|]. split; [lia|].
      now rewrite Z.sub_diag.
Qed.

Lemma process_loop_settled : forall (fuel : nat) (value last up : Z),
  -3 <= s8 (value - last) <= 3 ->
  ButtonEncoder.process_loop (S fuel) value last up = Some (last, up).
Proof.
  intros fuel value last up H. cbn [ButtonEncoder.process_loop]. cbv zeta.
  destruct (Z.ltb_spec (s8 (value - last)) (-3)); [lia|].
  destruct (Z.ltb_spec 3 (s8 (value - last))); [lia | reflexivity].
Qed.

Lemma process_loop_result : forall (fuel : nat) (value last up last' up' : Z),
  ButtonEncoder.process_loop fuel value last up = Some (last', up') ->
  -3 <= s8 (value - last') <= 3.
Proof.
  induction fuel as [|fuel IH]; intros value last up last' up' H; [discriminate H|].
  cbn [ButtonEncoder.process_loop] in H. cbv zeta in H.
  destruct (Z.ltb_spec (s8 (value - last)) (-3)); [eapply IH, H|].
  destruct (Z.ltb_spec 3 (s8 (value - last))); [eapply IH, H|].
  inversion H; subst. lia.
Qed.

Lemma saturate_presses bp :
  is_byte bp ->
  (if bp <? 128 then Z.land bp 0x7F else 0x7F) = Z.min bp 127.
Proof.
  intros Hb. destruct (Z.ltb_spec bp 128).
  - change (Z.land bp 0x7F) with (Z.land bp (Z.ones 7)).
    rewrite Z.land_ones by lia. change (2 ^ 7) with 128.
    unfold is_byte in Hb. rewrite Z.mod_small by lia. lia.
  - lia.
Qed.

(** X17.  [process] terminates (33 rounds of its loop always suffice) and
    returns the number of button presses, saturated at 127, whatever the
    encoder did: the assignment in the atomic block replaces the rotation
    count.  It clears the press counter and moves
    [encoder_last_processed] by a multiple of 4 to within 3 steps of
    [encoder_value]. *)
Theorem process_settles :
  forall (fuel : nat) (st : ButtonEncoder.state),
    (33 <= fuel)%nat ->
    is_byte (ButtonEncoder.button_presses st) ->
    exists last',
      ButtonEncoder.process fuel st =
        Some (Z.min (ButtonEncoder.button_presses st) 127,
              ButtonEncoder.mk 0 last' (ButtonEncoder.encoder_value st)
                               (ButtonEncoder.prev_reading st)) /\
      -3 <= s8 (ButtonEncoder.encoder_value st - last') <= 3 /\
      (last' - ButtonEncoder.encoder_last_processed st) mod 4 = 0.
Proof.
  intros fuel st Hfuel Hbp.
  destruct (process_loop_terminates fuel (ButtonEncoder.encoder_value st)
              (ButtonEncoder.encoder_last_processed st) 0)
    as [last' [up' [Hloop [Hd Hm]]]].
  { pose proof (s8_range (ButtonEncoder.encoder_value st
                          - ButtonEncoder.encoder_last_processed st)). lia. }
  exists last'. unfold ButtonEncoder.process. rewrite Hloop. cbv zeta.
  rewrite saturate_presses by assumption. auto.
Qed.

Lemma process_settles_witness :
  exists last',
    ButtonEncoder.process 40 (ButtonEncoder.mk 200 250 9 3) =
      Some (Z.min 200 127, ButtonEncoder.mk 0 last' 9 3) /\
    -3 <= s8 (9 - last') <= 3 /\
    (last' - 250) mod 4 = 0.
Proof.
  refine (process_settles 40 (ButtonEncoder.mk 200 250 9 3) _ _).
  - lia.
  - cbn. unfold is_byte. lia.
Defined.

(** X18.  Calling [process] again right after a call that returned gives
    0 and changes nothing. *)
Theorem process_twice :
  forall (fuel fuel' : nat) (st st' : ButtonEncoder.state) (v : Z),
    ButtonEncoder.process fuel st = Some (v, st') ->
    ButtonEncoder.process (S fuel') st' = Some (0, st').
Proof.
  intros fuel fuel' st st' v H. unfold ButtonEncoder.process in H.
  destruct (ButtonEncoder.process_loop fuel (ButtonEncoder.encoder_value st)
              (ButtonEncoder.encoder_last_processed st) 0)
    as [[last up]|] eqn:Hloop; [|discriminate H].
  apply process_loop_result in Hloop.
  inversion H; subst. unfold ButtonEncoder.process.
  cbn [ButtonEncoder.encoder_value ButtonEncoder.encoder_last_processed
       ButtonEncoder.button_presses ButtonEncoder.prev_reading].
  rewrite process_loop_settled by assumption. reflexivity.
Qed.

Lemma process_twice_witness :
  ButtonEncoder.process 1 (ButtonEncoder.mk 0 6 9 3) =
  Some (0, ButtonEncoder.mk 0 6 9 3).
Proof.
  refine (process_twice 40 0 (ButtonEncoder.mk 200 250 9 3)
            (ButtonEncoder.mk 0 6 9 3) 127 _).
  reflexivity.
Defined.

Lemma presses_count n : forall st,
  is_byte (ButtonEncoder.button_presses st) ->
  ButtonEncoder.button_presses (presses n st)
    = u8 (ButtonEncoder.button_presses st + Z.of_nat n).
Proof.
  induction n as [|n IH]; intros st Hb.
  - cbn [presses Z.of_nat]. rewrite Z.add_0_r. unfold u8.
    unfold is_byte in Hb. now rewrite Z.mod_small by lia.
  - cbn [presses]. rewrite IH by (cbn; apply is_byte_u8).
    cbn [ButtonEncoder.button_isr ButtonEncoder.button_presses].
    unfold u8. rewrite Zplus_mod_idemp_l. f_equal. lia.
Qed.

(** X19.  The press counter is a byte: [n] presses between two calls of
    [process] are reported as [n mod 256], saturated at 127; in
    particular 256 presses read as none. *)
Theorem presses_reported_modulo_256 :
  forall (n fuel : nat) (st : ButtonEncoder.state),
    (33 <= fuel)%nat ->
    ButtonEncoder.button_presses st = 0 ->
    exists st',
      ButtonEncoder.process fuel (presses n st) =
        Some (Z.min (Z.of_nat n mod 256) 127, st').
Proof.
  intros n fuel st Hfuel Hzero.
  assert (Hbp : ButtonEncoder.button_presses (presses n st) = Z.of_nat n mod 256).
  { rewrite presses_count by (rewrite Hzero; unfold is_byte; lia).
    now rewrite Hzero. }
  destruct (process_loop_terminates fuel
              (ButtonEncoder.encoder_value (presses n st))
              (ButtonEncoder.encoder_last_processed (presses n st)) 0)
    as [last' [up' [Hloop _]]].
  { pose proof (s8_range (ButtonEncoder.encoder_value (presses n st)
                          - ButtonEncoder.encoder_last_processed (presses n st))).
    lia. }
  eexists. unfold ButtonEncoder.process. rewrite Hloop. cbv zeta.
  rewrite saturate_presses by (rewrite Hbp; apply Z.mod_pos_bound; lia).
  now rewrite Hbp.
Qed.

Lemma presses_reported_modulo_256_witness :
  exists st',
    ButtonEncoder.process 33 (presses 256 ButtonEncoder.init) =
      Some (Z.min (Z.of_nat 256 mod 256) 127, st').
Proof.
  refine (presses_reported_modulo_256 256 33 ButtonEncoder.init _ _).
  - lia.
  - reflexivity.
Defined.

Lemma reading_of_range a b : 0 <= reading_of a b <= 3.
Proof. destruct a, b; vm_compute; split; discriminate. Qed.

(** The table entry, read as a byte, is the difference of the phases
    modulo 4. *)
Lemma table_phase prev a b :
  0 <= prev <= 3 ->
  (phase prev
   + u8 (nth (Z.to_nat (u8 (Z.lor (Z.shiftl prev 2) (reading_of a b))))
             ButtonEncoder.table 0)) mod 4
  = phase (reading_of a b).
Proof.
  intros Hp.
  assert (H : prev = 0 \/ prev = 1 \/ prev = 2 \/ prev = 3) by lia.
  destruct H as [-> | [-> | [-> | ->]]]; destruct a, b; reflexivity.
Qed.

Lemma encoder_isr_fields a b st :
  snd (ButtonEncoder.encoder_isr a b st) =
  ButtonEncoder.mk
    (ButtonEncoder.button_presses st) (ButtonEncoder.encoder_last_processed st)
    (u8 (ButtonEncoder.encoder_value st
         + u8 (nth (Z.to_nat (u8 (Z.lor (Z.shiftl (ButtonEncoder.prev_reading st) 2)
                                        (reading_of a b))))
                   ButtonEncoder.table 0)))
    (reading_of a b) /\
  fst (ButtonEncoder.encoder_isr a b st) =
  (u8 (ButtonEncoder.encoder_value st
       + u8 (nth (Z.to_nat (u8 (Z.lor (Z.shiftl (ButtonEncoder.prev_reading st) 2)
                                      (reading_of a b))))
                 ButtonEncoder.table 0)) mod 4 =? 0).
Proof. split; reflexivity. Qed.

Lemma encoder_isr_inv a b st :
  encoder_inv st -> encoder_inv (snd (ButtonEncoder.encoder_isr a b st)).
Proof.
  intros [Hp [Hv Hph]].
  rewrite (proj1 (encoder_isr_fields a b st)). unfold encoder_inv.
  cbn [ButtonEncoder.prev_reading ButtonEncoder.encoder_value].
  split; [apply reading_of_range|]. split; [apply is_byte_u8|].
  rewrite <- (table_phase (ButtonEncoder.prev_reading st) a b Hp), <- Hph.
  set (t := u8 (nth _ _ _)). unfold u8.
  set (v := ButtonEncoder.encoder_value st).
  pose proof (Z.div_mod (v + t) 256).
  pose proof (Z.mod_pos_bound (v + t) 256).
  replace ((v + t) mod 256) with ((v + t) + (- (64 * ((v + t) / 256))) * 4) by lia.
  rewrite Z.mod_add by lia.
  rewrite Zplus_mod_idemp_l. reflexivity.
Qed.

Lemma encoder_run_inv readings : forall st,
  encoder_inv st -> encoder_inv (encoder_run readings st).
Proof.
  induction readings as [|[a b] rest IH]; intros st H; [assumption|].
  cbn [encoder_run]. apply IH, encoder_isr_inv, H.
Qed.

Lemma encoder_inv_init : encoder_inv ButtonEncoder.init.
Proof. unfold encoder_inv. cbn. unfold is_byte. repeat split; lia. Qed.

Lemma phase_zero r : 0 <= r <= 3 -> (phase r = 0 <-> r = 3).
Proof.
  intros Hr. assert (H : r = 0 \/ r = 1 \/ r = 2 \/ r = 3) by lia.
  destruct H as [-> | [-> | [-> | ->]]]; cbn; split; (discriminate || reflexivity || lia).
Qed.

(** X20.  Whatever levels the interrupt handler reads, in whatever order,
    from the constructor's state on: the stored reading is one of the
    four, [encoder_value] modulo 4 is the phase of the pins last read, and
    so [encoder_value] is a multiple of 4 exactly when both pins were last
    read high (the encoder is at a detent). *)
Theorem encoder_value_tracks_phase :
  forall (readings : list (bool * bool)),
    let st := encoder_run readings ButtonEncoder.init in
    0 <= ButtonEncoder.prev_reading st <= 3 /\
    is_byte (ButtonEncoder.encoder_value st) /\
    ButtonEncoder.encoder_value st mod 4 = phase (ButtonEncoder.prev_reading st) /\
    (ButtonEncoder.encoder_value st mod 4 = 0 <-> ButtonEncoder.prev_reading st = 3).
Proof.
  intros readings st.
  destruct (encoder_run_inv readings ButtonEncoder.init encoder_inv_init)
    as [Hp [Hv Hph]].
  fold st in Hp, Hv, Hph.
  repeat split; try assumption; try apply Hp; try apply Hv.
  - intros H. apply phase_zero; [assumption | congruence].
  - intros H. rewrite Hph. apply phase_zero; assumption.
Qed.

(** X21.  From the constructor's state on and after any readings,
    [encoder_isr] restarts the process task exactly when it reads both
    pins high. *)
Theorem restart_exactly_at_detent :
  forall (readings : list (bool * bool)) (a b : bool),
    fst (ButtonEncoder.encoder_isr a b (encoder_run readings ButtonEncoder.init))
    = a && b.
Proof.
  intros readings a b.
  pose proof (encoder_isr_inv a b _
                (encoder_run_inv readings ButtonEncoder.init encoder_inv_init))
    as [Hp [_ Hph]].
  destruct (encoder_isr_fields a b (encoder_run readings ButtonEncoder.init))
    as [Hs Hf].
  rewrite Hf. rewrite Hs in Hph, Hp.
  cbn [ButtonEncoder.prev_reading ButtonEncoder.encoder_value] in Hph, Hp.
  rewrite Hph.
  destruct a, b; reflexivity.
Qed.

Ltac eval_table :=
  repeat match goal with
         | |- context [u8 (nth ?k ButtonEncoder.table 0)] =>
             let c := eval vm_compute in (u8 (nth k ButtonEncoder.table 0)) in
             change (u8 (nth k ButtonEncoder.table 0)) with c
         end.

(** X22.  Contact bounce does no harm: when the pins are read at any
    levels and then again at the levels they had before, [encoder_value]
    and the stored reading are back where they were. *)
Theorem bounce_is_undone :
  forall (pa pb a b : bool) (st : ButtonEncoder.state),
    is_byte (ButtonEncoder.encoder_value st) ->
    ButtonEncoder.prev_reading st = reading_of pa pb ->
    let st2 := snd (ButtonEncoder.encoder_isr pa pb
                      (snd (ButtonEncoder.encoder_isr a b st))) in
    ButtonEncoder.encoder_value st2 = ButtonEncoder.encoder_value st /\
    ButtonEncoder.prev_reading st2 = ButtonEncoder.prev_reading st.
Proof.
  intros pa pb a b st Hv Hprev st2. subst st2.
  rewrite (proj1 (encoder_isr_fields pa pb _)).
  rewrite (proj1 (encoder_isr_fields a b st)).
  cbn [ButtonEncoder.prev_reading ButtonEncoder.encoder_value].
  rewrite Hprev. split; [|reflexivity].
  set (v := ButtonEncoder.encoder_value st) in *. unfold is_byte in Hv.
  destruct pa, pb, a, b; eval_table; unfold u8;
    Z.to_euclidean_division_equations; lia.
Qed.

Lemma bounce_is_undone_witness :
  ButtonEncoder.encoder_value
    (snd (ButtonEncoder.encoder_isr true true
            (snd (ButtonEncoder.encoder_isr false false ButtonEncoder.init))))
  = ButtonEncoder.encoder_value ButtonEncoder.init.
Proof.
  refine (proj1 (bounce_is_undone true true false false ButtonEncoder.init _ _)).
  - cbn. unfold is_byte. lia.
  - reflexivity.
Defined.

(** X23.  Starting at a detent, a full quadrature cycle clockwise (A low,
    B low, A high, B high) adds 4 to [encoder_value] and the reverse cycle
    subtracts 4, modulo 256; both end at a detent again. *)
Theorem detent_moves_value_by_four :
  forall (st : ButtonEncoder.state),
    ButtonEncoder.prev_reading st = 3 ->
    ButtonEncoder.encoder_value (encoder_run clockwise_detent st)
      = u8 (ButtonEncoder.encoder_value st + 4) /\
    ButtonEncoder.encoder_value (encoder_run counterclockwise_detent st)
      = u8 (ButtonEncoder.encoder_value st - 4) /\
    ButtonEncoder.prev_reading (encoder_run clockwise_detent st) = 3 /\
    ButtonEncoder.prev_reading (encoder_run counterclockwise_detent st) = 3.
Proof.
  intros st Hprev.
  unfold clockwise_detent, counterclockwise_detent. cbn [encoder_run].
  rewrite !(proj1 (encoder_isr_fields _ _ _)).
  cbn [ButtonEncoder.prev_reading ButtonEncoder.encoder_value].
  rewrite Hprev.
  set (v := ButtonEncoder.encoder_value st).
  repeat split; eval_table; try reflexivity; unfold u8;
    Z.to_euclidean_division_equations; lia.
Qed.

Lemma detent_moves_value_by_four_witness :
  ButtonEncoder.encoder_value (encoder_run clockwise_detent ButtonEncoder.init)
  = u8 (ButtonEncoder.encoder_value ButtonEncoder.init + 4).
Proof.
  refine (proj1 (detent_moves_value_by_four ButtonEncoder.init _)).
  reflexivity.
Defined.

Lemma process_loop_byte : forall (fuel : nat) (value last up last' up' : Z),
  is_byte last ->
  ButtonEncoder.process_loop fuel value last up = Some (last', up') ->
  is_byte last'.
Proof.
  induction fuel as [|fuel IH]; intros value last up last' up' Hb H; [discriminate H|].
  cbn [ButtonEncoder.process_loop] in H. cbv zeta in H.
  destruct (s8 (value - last) <? -3); [eapply IH; [apply is_byte_u8 | exact H]|].
  destruct (3 <? s8 (value - last)); [eapply IH; [apply is_byte_u8 | exact H]|].
  inversion H; subst. assumption.
Qed.

Lemma encoder_run_keeps readings : forall st,
  ButtonEncoder.encoder_last_processed (encoder_run readings st)
    = ButtonEncoder.encoder_last_processed st /\
  ButtonEncoder.button_presses (encoder_run readings st)
    = ButtonEncoder.button_presses st.
Proof.
  induction readings as [|[a b] rest IH]; intros st; [split; reflexivity|].
  cbn [encoder_run]. destruct (IH (snd (ButtonEncoder.encoder_isr a b st))) as [H1 H2].
  rewrite H1, H2. split; reflexivity.
Qed.

(** X24.  Interrupts and [process] together: when the encoder, after any
    sequence of readings since the constructor, rests at a detent (both
    pins last read high), [process] brings [encoder_last_processed] all
    the way to [encoder_value]; nothing is left over for the next call. *)
Theorem process_catches_up_at_detent :
  forall (readings : list (bool * bool)) (fuel : nat),
    (33 <= fuel)%nat ->
    ButtonEncoder.prev_reading (encoder_run readings ButtonEncoder.init) = 3 ->
    exists v st',
      ButtonEncoder.process fuel (encoder_run readings ButtonEncoder.init)
        = Some (v, st') /\
      ButtonEncoder.encoder_last_processed st' = ButtonEncoder.encoder_value st' /\
      ButtonEncoder.encoder_value st'
        = ButtonEncoder.encoder_value (encoder_run readings ButtonEncoder.init).
Proof.
  intros readings fuel Hfuel Hdetent.
  set (st := encoder_run readings ButtonEncoder.init) in *.
  destruct (encoder_run_inv readings ButtonEncoder.init encoder_inv_init)
    as [_ [Hv Hph]].
  fold st in Hv, Hph. rewrite Hdetent in Hph. cbn in Hph.
  destruct (encoder_run_keeps readings ButtonEncoder.init) as [Hlast _].
  fold st in Hlast. cbn in Hlast.
  destruct (process_loop_terminates fuel (ButtonEncoder.encoder_value st)
              (ButtonEncoder.encoder_last_processed st) 0)
    as [last' [up' [Hloop [Hd Hm]]]].
  { pose proof (s8_range (ButtonEncoder.encoder_value st
                          - ButtonEncoder.encoder_last_processed st)). lia. }
  assert (Hb : is_byte last').
  { eapply process_loop_byte; [|exact Hloop]. rewrite Hlast. unfold is_byte. lia. }
  unfold ButtonEncoder.process. rewrite Hloop. cbv zeta.
  eexists. eexists. split; [reflexivity|].
  cbn [ButtonEncoder.encoder_last_processed ButtonEncoder.encoder_value].
  split; [|reflexivity].
  rewrite Hlast, Z.sub_0_r in Hm.
  pose proof (s8_diff_mod (ButtonEncoder.encoder_value st - last')) as Hs.
  set (v := ButtonEncoder.encoder_value st) in *.
  set (d := s8 (v - last')) in *.
  unfold is_byte in Hv, Hb.
  Z.to_euclidean_division_equations. lia.
Qed.

Lemma process_catches_up_at_detent_witness :
  exists v st',
    ButtonEncoder.process 33 (encoder_run clockwise_detent ButtonEncoder.init)
      = Some (v, st') /\
    ButtonEncoder.encoder_last_processed st' = ButtonEncoder.encoder_value st' /\
    ButtonEncoder.encoder_value st'
      = ButtonEncoder.encoder_value (encoder_run clockwise_detent ButtonEncoder.init).
Proof.
  refine (process_catches_up_at_detent clockwise_detent 33 _ _).
  - lia.
  - reflexivity.
Defined.

(** ** The further theorems at concrete inputs *)

Lemma calcCrc_detects_single_byte_change_witness :
  calcCrc (mem_of_list 16 [0x81; 0x89]) 16 2 <> calcCrc (mem_of_list 16 [0x80; 0x89]) 16 2.
Proof.
  refine (proj1 (calcCrc_detects_single_byte_change
                   (mem_of_list 16 [0x80; 0x89]) (mem_of_list 16 [0x81; 0x89])
                   16 2 0 _ _ _ _ _)).
  - intros i Hi. assert (H : i = 0 \/ i = 1) by lia.
    destruct H as [-> | ->]; (vm_compute; split; [discriminate | reflexivity]).
  - intros i Hi. assert (H : i = 0 \/ i = 1) by lia.
    destruct H as [-> | ->]; (vm_compute; split; [discriminate | reflexivity]).
  - lia.
  - discriminate.
  - intros i Hi Hne. assert (H : i = 1) by lia. subst i. reflexivity.
Defined.

Lemma calcCrc_xor_witness :
  calcCrc (xor_mem (mem_of_list 16 [0x80; 0x89]) (mem_of_list 16 [0x02; 0x0E])) 16 2
  = Z.lxor (calcCrc (mem_of_list 16 [0x80; 0x89]) 16 2)
           (calcCrc (mem_of_list 16 [0x02; 0x0E]) 16 2).
Proof.
  refine (calcCrc_xor (mem_of_list 16 [0x80; 0x89]) (mem_of_list 16 [0x02; 0x0E])
            16 2 _ _).
  - intros i Hi. assert (H : i = 0 \/ i = 1) by lia.
    destruct H as [-> | ->]; (vm_compute; split; [discriminate | reflexivity]).
  - intros i Hi. assert (H : i = 0 \/ i = 1) by lia.
    destruct H as [-> | ->]; (vm_compute; split; [discriminate | reflexivity]).
Defined.

Lemma no_reply_suppresses_the_response_witness :
  TwoWireCallback (fun _ _ _ _ mem => (cmd_result_status Status.NO_REPLY, mem))
                  0 8 16 2 6 (mkMachine (mem_of_list 16 [0x80; 0x89]) [])
  = (Some 0,
     mkMachine (mem_of_list 16 [0x80; 0x89])
               ([] ++ [CalcCrc 16 2; ProcessCommand 0x80 (16 + 1) (u8 (2 - 2)) (u8 (6 - 2))])).
Proof.
  refine (no_reply_suppresses_the_response
            (fun _ _ _ _ mem => (cmd_result_status Status.NO_REPLY, mem))
            0 8 16 2 6 (mkMachine (mem_of_list 16 [0x80; 0x89]) [])
            (cmd_result_status Status.NO_REPLY) (mem_of_list 16 [0x80; 0x89])
            _ _ _ _ _ _).
  - discriminate.
  - lia.
  - lia.
  - reflexivity.
  - reflexivity.
  - reflexivity.
Defined.

Lemma every_reply_checksums_to_zero_witness :
  2 <= 6 /\
  calcCrc (m_mem (snd (TwoWireCallback (firmware_processCommand (0x1234, 0x5678))
                         0 8 16 2 6 (mkMachine (mem_of_list 16 [0x80; 0x89]) []))))
          16 6 = 0.
Proof.
  refine (every_reply_checksums_to_zero (firmware_processCommand (0x1234, 0x5678))
            0 8 16 2 6 (mkMachine (mem_of_list 16 [0x80; 0x89]) []) 6 _ _ _ _).
  - discriminate.
  - intros _ _ _. vm_compute. split; discriminate.
  - reflexivity.
  - discriminate.
Defined.

Lemma declared_length_wraps_witness :
  fst (TwoWireCallback (fun _ _ _ _ mem => (CmdResult.mk Status.COMMAND_OK 255, mem))
                       0 8 16 2 6 (mkMachine (mem_of_list 16 [0x80; 0x89]) []))
  = Some (255 - 254).
Proof.
  refine (proj1 (declared_length_wraps
                   (fun _ _ _ _ mem => (CmdResult.mk Status.COMMAND_OK 255, mem))
                   0 8 16 2 6 (mkMachine (mem_of_list 16 [0x80; 0x89]) [])
                   Status.COMMAND_OK 255 (mem_of_list 16 [0x80; 0x89])
                   _ _ _ _ _ _ _)).
  - discriminate.
  - lia.
  - lia.
  - reflexivity.
  - reflexivity.
  - discriminate.
  - lia.
Defined.

Lemma bad_checksum_reply_witness :
  fst (TwoWireCallback (firmware_processCommand (0, 0)) 0 8 16 3 6
         (mkMachine (mem_of_list 16 [0x80; 0x01; 0x02]) [])) = Some 2.
Proof.
  refine (proj1 (bad_checksum_reply (firmware_processCommand (0, 0)) 0 8 16 3 6
                   (mkMachine (mem_of_list 16 [0x80; 0x01; 0x02]) []) _ _ _ _)).
  - discriminate.
  - lia.
  - lia.
  - vm_compute. discriminate.
Defined.

Lemma unknown_command_not_supported_witness :
  fst (firmware (0, 0) 0 8 16 2 6 (mkMachine (mem_of_list 16 [0x00; 0x00]) []))
  = Some 2.
Proof.
  refine (proj1 (unknown_command_not_supported (0, 0) 0 8 16 2 6
                   (mkMachine (mem_of_list 16 [0x00; 0x00]) []) _ _ _ _ _)).
  - discriminate.
  - lia.
  - lia.
  - reflexivity.
  - discriminate.
Defined.

Lemma get_last_measurement_invalid_arguments_witness :
  fst (firmware (0, 0) 0 8 16 2 5 (mkMachine (mem_of_list 16 [0x80; 0x89]) []))
  = Some 2.
Proof.
  refine (proj1 (get_last_measurement_invalid_arguments (0, 0) 0 8 16 2 5
                   (mkMachine (mem_of_list 16 [0x80; 0x89]) []) _ _ _ _ _ _)).
  - discriminate.
  - lia.
  - lia.
  - reflexivity.
  - reflexivity.
  - right. lia.
Defined.

Lemma get_last_measurement_round_trip_witness :
  decode16 (m_mem (snd (firmware (1000, 65535) 0 8 16 2 6
                          (mkMachine (mem_of_list 16 [0x80; 0x89]) [])))) (16 + 1)
  = 1000.
Proof.
  refine (proj1 (proj2 (proj2 (get_last_measurement_round_trip 1000 65535 0 8 16 6
                   (mkMachine (mem_of_list 16 [0x80; 0x89]) []) _ _ _ _ _ _)))).
  - discriminate.
  - lia.
  - reflexivity.
  - reflexivity.
  - lia.
  - lia.
Defined.

Lemma firmware_always_replies_witness :
  fst (firmware (0, 0) 0 8 16 0 2 (mkMachine (mem_of_list 16 []) [])) = Some 2 \/
  fst (firmware (0, 0) 0 8 16 0 2 (mkMachine (mem_of_list 16 []) [])) = Some 6.
Proof.
  refine (proj1 (firmware_always_replies (0, 0) 0 8 16 0 2
                   (mkMachine (mem_of_list 16 []) []) _ _)).
  - discriminate.
  - lia.
Defined.

Lemma firmware_within_buffer_witness :
  exists n,
    fst (firmware (0x1234, 0x5678) 0 8 16 2 6
                  (mkMachine (mem_of_list 16 [0x80; 0x89]) [])) = Some n /\
    0 <= n <= 6.
Proof.
  refine (proj1 (firmware_within_buffer (0x1234, 0x5678) 0 8 16 2 6
                   (mkMachine (mem_of_list 16 [0x80; 0x89]) []) _ _ _)).
  - discriminate.
  - lia.
  - lia.
Defined.

Lemma measure_then_query_witness :
  decode16
    (m_mem (snd (firmware
                   (measurement (measure_hopper 300 512
                                   (mkBoard (0, 0) (fun _ => LOW) [])))
                   0 8 16 2 6 (mkMachine (mem_of_list 16 [0x80; 0x89]) []))))
    (16 + 1)
  = u16 300.
Proof.
  refine (proj1 (proj2 (measure_then_query 300 512 (mkBoard (0, 0) (fun _ => LOW) [])
                   0 8 16 6 (mkMachine (mem_of_list 16 [0x80; 0x89]) []) _ _ _ _))).
  - discriminate.
  - lia.
  - reflexivity.
  - reflexivity.
Defined.
